(** * MuPix converter plugin: a shallow embedding of Mupix6ConverterPlugin.cc

    The plugin turns raw MuPix readout events into
    - a [StandardPlane] attached to a [StandardEvent]
      ([GetStandardSubEvent], the quick-look path), and
    - three LCIO [TrackerDataImpl] frames (pixels, triggers, time over
      threshold) handed over to named collections of an [LCEvent]
      ([GetLCIOSubEvent] with two and with three readout cycles).

    Unsigned machine integers (coordinates, identifiers, time stamps) are
    values of [N]; the only arithmetic the plugin does on them are the masks
    and shifts written out below.  Loop counters ([uint64_t nhits],
    [unsigned i, j]) count the elements of vectors held in memory and are
    natural numbers. *)

From Stdlib Require Import NArith.
From Stdlib.Strings Require Import Byte.
From stdpp Require Import gmap strings list fin_maps.

(** ** Constants of the plugin *)

Definition MUPIX_EVENT_TYPE : string := "MUPIX7".
Definition MUPIX_SENSOR_ID : N := 71.
Definition MUPIX_SENSOR_TYPE : string := "MUPIX7".
Definition MUPIX_TYPE : N := 7.
Definition MUPIX_SENSOR_NUM_COLS : N := 40.
Definition MUPIX_SENSOR_NUM_ROWS : N := 32.
Definition MUPIX_SENSOR_BINARY_SIGNAL : N := 1.
Definition MUPIX_COLLECTION_NAME : string := "zsdata_mupix7".
Definition TRIGGER_COLLECTION_NAME : string := "eudet_triggers".
Definition TOT_COLLECTION_NAME : string := "eudet_tots".

(** ** What the frame decoder hands to the plugin (eudaq/Mupix.hh,
    eudaq/telescope_frame.hh) *)

(** Modelled from the spec: the decoded entries declared in eudaq/Mupix.hh.
    A hit has a row, a column and an 8 bit raw time stamp; a trigger an
    absolute 64 bit time stamp and a 16 bit tag; a time over threshold a
    time stamp and a length. *)
Record RawHit := mkRawHit {
  hit_row : N;
  hit_column : N;
  hit_timestamp_raw : N
}.

Record RawTrigger := mkRawTrigger {
  trig_timestamp : N;
  trig_tag : N
}.

Record RawTimeOverThreshold := mkRawTot {
  tot_timestamp : N;
  tot_length : N
}.

(** [TelescopeFrame] after [from_bytes]: the frame time stamp and the three
    vectors read through [get_hit], [get_trigger] and [get_tot]. *)
Record TelescopeFrame := mkFrame {
  frame_timestamp : N;
  frame_hits : list RawHit;
  frame_triggers : list RawTrigger;
  frame_tots : list RawTimeOverThreshold
}.

Definition num_hits (data : TelescopeFrame) : nat := length (frame_hits data).
Definition num_triggers (data : TelescopeFrame) : nat := length (frame_triggers data).
Definition num_tots (data : TelescopeFrame) : nat := length (frame_tots data).

(** ** Events of the host runtime (eudaq/Event.hh, eudaq/RawDataEvent.hh) *)

Record RawBlock := mkBlock {
  block_id : N;
  block_data : list byte
}.

Record RawDataEvent := mkRaw {
  raw_bore : bool;
  raw_eore : bool;
  raw_blocks : list RawBlock
}.

(** An [eudaq::Event] is a [RawDataEvent] or an event of another class, on
    which [dynamic_cast<const RawDataEvent *>] gives a null pointer.  Every
    event answers [IsBORE] and [IsEORE]. *)
Inductive Event :=
| Raw (source : RawDataEvent)
| NotRaw (bore eore : bool).

Definition IsBORE (ev : Event) : bool :=
  match ev with Raw s => raw_bore s | NotRaw b _ => b end.

Definition IsEORE (ev : Event) : bool :=
  match ev with Raw s => raw_eore s | NotRaw _ e => e end.

Definition dynamic_cast_raw (ev : Event) : option RawDataEvent :=
  match ev with Raw s => Some s | NotRaw _ _ => None end.

Definition NumBlocks (source : RawDataEvent) : nat := length (raw_blocks source).

(** [GetID(i)], [None] for an index outside of the block vector. *)
Definition GetID (source : RawDataEvent) (i : nat) : option N :=
  block_id <$> raw_blocks source !! i.

(** [GetID(NumBlocks()-1)]: with no block the unsigned index wraps to the
    largest value, which lies outside of the block vector. *)
Definition GetID_last (source : RawDataEvent) : option N :=
  match NumBlocks source with
  | 0 => None
  | S i => GetID source i
  end.

(** ** Diagnostics *)

Inductive Diagnostic :=
| EUDAQ_ERROR (msg : string)
| EUDAQ_WARN (msg : string)
| CoutWarning (col row : N)
    (* cout << "WARNING: col = " << col << ", row = " << row *)
| CoutFailed (what : string)
    (* cout << "FAILED to convert " << what << " event to RawDataEvent" *).

(** ** Encoded entries of the LCIO frames *)

(** [EUTelExternalTrigger (timestamp, label)]. *)
Record EUTelExternalTrigger := mkExternalTrigger {
  ext_timestamp : N;
  ext_label : N
}.

(** [EUTelMuPixel], fields in the order of the constructor's arguments. *)
Record EUTelMuPixel := mkMuPixel {
  px_x : N;
  px_y : N;
  px_signal : N;
  px_time : N;
  px_hit_timestamp : N;
  px_frame_timestamp : N
}.

(** The value a trigger is added with: time stamp and tag, as they are. *)
Definition eutel_trigger (trig : RawTrigger) : EUTelExternalTrigger :=
  mkExternalTrigger (trig_timestamp trig) (trig_tag trig).

(** [(timestamp & 0xFFFFFFFFFFFF) << 8 | (length & 0xFF)] *)
Definition pack_tot (timestamp len : N) : N :=
  N.lor (N.shiftl (N.land timestamp 0xFFFFFFFFFFFF) 8) (N.land len 0xFF).

(** [(uint64_t)((tot.timestamp() & 0xFFFFFFFFFFFF) << 8 | (tot.length() & 0xFF))] *)
Definition tot_word (tot : RawTimeOverThreshold) : N :=
  (pack_tot (tot_timestamp tot) (tot_length tot) mod 2 ^ 64)%N.

Definition eutel_tot (tot : RawTimeOverThreshold) : EUTelExternalTrigger :=
  mkExternalTrigger (tot_word tot) 0x2.

(** The pixel built for a hit of the frame [data]: row and column go to the
    first and second coordinate in this order (the swap of the March 2016
    analysis), the signal is 1, the time 0, then the raw hit time stamp and
    [data.timestamp() & 0xFFFFFFFF]. *)
Definition mu_pixel (data : TelescopeFrame) (hit : RawHit) : EUTelMuPixel :=
  mkMuPixel (hit_row hit) (hit_column hit) 1 0 (hit_timestamp_raw hit)
            (N.land (frame_timestamp data) 0xFFFFFFFF).

(** [row() < MUPIX_SENSOR_NUM_COLS && column() < MUPIX_SENSOR_NUM_ROWS] *)
Definition hit_in_sensor (hit : RawHit) : bool :=
  (hit_row hit <? MUPIX_SENSOR_NUM_COLS)%N && (hit_column hit <? MUPIX_SENSOR_NUM_ROWS)%N.

(** [cout << "WARNING: col = " << row() << ", row = " << column()] *)
Definition hit_warning (hit : RawHit) : Diagnostic :=
  CoutWarning (hit_row hit) (hit_column hit).

(** ** LCIO side: frames, collections, event *)

Inductive SparsePixelType := kEUTelMuPixel.

(** A [TrackerDataImpl] with the cell id the encoder gave it and the entries
    added through the pixel or the trigger interfacer. *)
Record TrackerDataImpl := mkTrackerData {
  cell_sensorID : N;
  cell_sparsePixelType : option SparsePixelType;
  td_pixels : list EUTelMuPixel;
  td_triggers : list EUTelExternalTrigger
}.

Abbreviation LCCollectionVec := (list TrackerDataImpl).
Abbreviation LCEvent := (gmap string (list TrackerDataImpl)).

(** A [LCCollectionVec *] of the conversion: it points either to the
    collection the event owns under a name, or to a collection made with
    [new] that the event does not know yet. *)
Inductive CollectionPtr :=
| InEvent (name : string)
| Fresh (elements : LCCollectionVec).

(** [try { c = dest.getCollection(name); exists = true; }
     catch (DataNotAvailableException &) { c = new LCCollectionVec; exists = false; }] *)
Definition get_or_new (dest : LCEvent) (name : string) : bool * CollectionPtr :=
  match dest !! name with
  | Some _ => (true, InEvent name)
  | None => (false, Fresh [])
  end.

Definition elements_of (dest : LCEvent) (c : CollectionPtr) : LCCollectionVec :=
  match c with
  | InEvent name => default [] (dest !! name)
  | Fresh l => l
  end.

(** [c->push_back(frame)]: through a pointer into the event it is the
    event's collection that grows. *)
Definition push_back (c : CollectionPtr) (frame : TrackerDataImpl) (dest : LCEvent)
  : CollectionPtr * LCEvent :=
  match c with
  | InEvent name => (c, alter (λ l, l ++ [frame]) name dest)
  | Fresh l => (Fresh (l ++ [frame]), dest)
  end.

Definition collection_size (dest : LCEvent) (c : CollectionPtr) : nat :=
  length (elements_of dest c).

Definition addCollection (dest : LCEvent) (c : CollectionPtr) (name : string) : LCEvent :=
  <[name := elements_of dest c]> dest.

(** The entries gathered by the interfacers while the blocks are read, and
    the lines written meanwhile. *)
Record Gathered := mkGathered {
  pixels : list EUTelMuPixel;
  triggers : list EUTelExternalTrigger;
  tots : list EUTelExternalTrigger;
  written : list Diagnostic
}.

Record LCIOResult := mkLCIOResult {
  lcio_return : bool;
  lcio_dest : LCEvent;
  lcio_log : list Diagnostic
}.

(** ** Quick-look side: planes of a standard event *)

(** One entry of the zero suppressed pixel vectors. *)
Record PlanePixel := mkPlanePixel {
  pp_x : N;
  pp_y : N;
  pp_pix : N
}.

(** Modelled from the spec: [StandardPlane], declared in
    eudaq/StandardEvent.hh: identity, declared size and a pixel list indexed
    by position.  [SetSizeZS] gives the list its declared length, so the
    declared hit count is the length of [plane_pixels]; a position [SetPixel]
    never wrote is [None]. *)
Record StandardPlane := mkPlane {
  plane_id : N;
  plane_type : string;
  plane_sensor : string;
  plane_xsize : N;
  plane_ysize : N;
  plane_tluevent : N;
  plane_pixels : list (option PlanePixel)
}.

Abbreviation StandardEvent := (list StandardPlane).

Definition new_plane (id : N) (type sensor : string) : StandardPlane :=
  mkPlane id type sensor 0 0 0 [].

Definition SetSizeZS (plane : StandardPlane) (w h : N) (npix : nat) : StandardPlane :=
  mkPlane (plane_id plane) (plane_type plane) (plane_sensor plane) w h
          (plane_tluevent plane) (replicate npix None).

Definition SetTLUEvent (plane : StandardPlane) (ev : N) : StandardPlane :=
  mkPlane (plane_id plane) (plane_type plane) (plane_sensor plane)
          (plane_xsize plane) (plane_ysize plane) ev (plane_pixels plane).

Definition with_pixels (plane : StandardPlane) (l : list (option PlanePixel))
  : StandardPlane :=
  mkPlane (plane_id plane) (plane_type plane) (plane_sensor plane)
          (plane_xsize plane) (plane_ysize plane) (plane_tluevent plane) l.

(** [SetPixel(index, x, y, pix, 0, 0)] writes position [index] of the pixel
    vectors; outside of them there is nothing it could write, [None]. *)
Definition SetPixel (plane : StandardPlane) (index : nat) (x y pix : N)
  : option StandardPlane :=
  if decide (index < length (plane_pixels plane)) then
    Some (with_pixels plane (<[index := Some (mkPlanePixel x y pix)]> (plane_pixels plane)))
  else None.

Definition AddPlane (dest : StandardEvent) (plane : StandardPlane) : StandardEvent :=
  dest ++ [plane].

Definition HitPixels (plane : StandardPlane) : nat := length (plane_pixels plane).

(** How a call ends: with a returned value, by running into the end of the
    function body without a [return], or at an access outside of a vector. *)
Inductive Outcome :=
| Returns (b : bool)
| NoReturn
| OutOfRange.

Record StandardResult := mkStandardResult {
  std_outcome : Outcome;
  std_dest : StandardEvent;
  std_log : list Diagnostic
}.

(** ** The conversions *)

Section Converter.

(** [TelescopeFrame::from_bytes], the decoder of one raw block: a function
    of the bytes. *)
Variable from_bytes : list byte → TelescopeFrame.

(** *** GetStandardSubEvent *)

(** First loop: [nhits += data.num_hits()] over the blocks. *)
Definition count_hits (source : RawDataEvent) : nat :=
  foldl (λ nhits blk, nhits + num_hits (from_bytes (block_data blk))) 0 (raw_blocks source).

(** [!(col==0&&row==0) || col>31 || row>39] *)
Definition quicklook_keeps (col row : N) : bool :=
  negb ((col =? 0)%N && (row =? 0)%N) || (31 <? col)%N || (39 <? row)%N.

(** The loop over the hits of one block; [j] is the index of the first hit of
    [hits] within its block. *)
Fixpoint set_block_pixels (hits : list RawHit) (nhits j : nat) (plane : StandardPlane)
  : option StandardPlane :=
  match hits with
  | [] => Some plane
  | hit :: rest =>
      let col := hit_column hit in
      let row := hit_row hit in
      plane' ← (if quicklook_keeps col row
                then SetPixel plane (nhits + j) row col MUPIX_SENSOR_BINARY_SIGNAL
                else Some plane);
      set_block_pixels rest nhits (S j) plane'
  end.

(** Second loop over the blocks, [nhits] running. *)
Fixpoint set_pixels (blocks : list RawBlock) (nhits : nat) (plane : StandardPlane)
  : option StandardPlane :=
  match blocks with
  | [] => Some plane
  | blk :: rest =>
      let data := from_bytes (block_data blk) in
      plane' ← set_block_pixels (frame_hits data) nhits 0 plane;
      set_pixels rest (nhits + num_hits data) plane'
  end.

(** The plane as it is before the test on the trigger id. *)
Definition build_plane (source : RawDataEvent) (tlu : N) : option StandardPlane :=
  let plane := new_plane MUPIX_SENSOR_ID MUPIX_EVENT_TYPE MUPIX_SENSOR_TYPE in
  let plane := SetSizeZS plane MUPIX_SENSOR_NUM_COLS MUPIX_SENSOR_NUM_ROWS (count_hits source) in
  let plane := SetTLUEvent plane tlu in
  set_pixels (raw_blocks source) 0 plane.

Definition empty_plane (tlu : N) : StandardPlane :=
  let plane2 := new_plane MUPIX_SENSOR_ID MUPIX_EVENT_TYPE MUPIX_SENSOR_TYPE in
  let plane2 := SetSizeZS plane2 MUPIX_SENSOR_NUM_COLS MUPIX_SENSOR_NUM_ROWS 0 in
  SetTLUEvent plane2 tlu.

Definition GetStandardSubEvent (dest : StandardEvent) (ev : Event) : StandardResult :=
  match dynamic_cast_raw ev with
  | Some source =>
      if raw_bore source then
        mkStandardResult (Returns true) dest [EUDAQ_ERROR "got BORE during conversion"]
      else if raw_eore source then
        mkStandardResult (Returns true) dest [EUDAQ_WARN "got EORE during conversion"]
      else
        match GetID_last source with
        | None => mkStandardResult OutOfRange dest []
        | Some tlu =>
            match build_plane source tlu with
            | None => mkStandardResult OutOfRange dest []
            | Some plane =>
                if (100 <? tlu)%N then
                  mkStandardResult (Returns true) (AddPlane dest plane) []
                else
                  mkStandardResult (Returns true) (AddPlane dest (empty_plane tlu)) []
            end
        end
  | None => mkStandardResult NoReturn dest []
  end.

(** *** GetLCIOSubEvent *)

(** The three inner loops over one decoded block. *)
Definition add_triggers (data : TelescopeFrame) (g : Gathered) : Gathered :=
  foldl (λ g trig,
           mkGathered (pixels g) (triggers g ++ [eutel_trigger trig]) (tots g) (written g))
        g (frame_triggers data).

Definition add_tots (data : TelescopeFrame) (g : Gathered) : Gathered :=
  foldl (λ g tot,
           mkGathered (pixels g) (triggers g) (tots g ++ [eutel_tot tot]) (written g))
        g (frame_tots data).

Definition add_hits (data : TelescopeFrame) (g : Gathered) : Gathered :=
  foldl (λ g hit,
           let pixel := mu_pixel data hit in
           if hit_in_sensor hit then
             mkGathered (pixels g ++ [pixel]) (triggers g) (tots g) (written g)
           else
             mkGathered (pixels g) (triggers g) (tots g) (written g ++ [hit_warning hit]))
        g (frame_hits data).

(** The loop over the blocks of one readout cycle. *)
Definition read_blocks (source : RawDataEvent) (g : Gathered) : Gathered :=
  foldl (λ g blk,
           let data := from_bytes (block_data blk) in
           add_hits data (add_tots data (add_triggers data g)))
        g (raw_blocks source).

(** The loops over the blocks of the readout cycles of a window, one cycle
    after the other, starting from empty frames. *)
Definition gather (cycles : list RawDataEvent) : Gathered :=
  foldl (λ g source, read_blocks source g) (mkGathered [] [] [] []) cycles.

(** The frames as the cell id encoders tag them: the sensor id and the
    sparse pixel type for the pixels, sensor id 1 for the triggers and (by
    the encoder of the triggers) for the time over threshold. *)
Definition mupix_frame_of (g : Gathered) : TrackerDataImpl :=
  mkTrackerData MUPIX_SENSOR_ID (Some kEUTelMuPixel) (pixels g) [].

Definition trigger_frame_of (g : Gathered) : TrackerDataImpl :=
  mkTrackerData 1 None [] (triggers g).

Definition tot_frame_of (g : Gathered) : TrackerDataImpl :=
  mkTrackerData 1 None [] (tots g).

(** State between [push_back] and the tests, and the tests themselves. *)
Record HandOver := mkHandOver {
  ho_dest : LCEvent;
  ho_mupix : bool * CollectionPtr;
  ho_trigger : bool * CollectionPtr;
  ho_tot : bool * CollectionPtr
}.

Definition push_frames (dest : LCEvent) (cm ct co : bool * CollectionPtr) (g : Gathered)
  : HandOver :=
  let '(mupix_collection, dest) := push_back cm.2 (mupix_frame_of g) dest in
  let '(trigger_collection, dest) := push_back ct.2 (trigger_frame_of g) dest in
  let '(tot_collection, dest) := push_back co.2 (tot_frame_of g) dest in
  mkHandOver dest (cm.1, mupix_collection) (ct.1, trigger_collection) (co.1, tot_collection).

(** [if (!exists && (c->size() != 0)) dest.addCollection(c, name);
     else cout << "FAILED to convert " << what << " event to RawDataEvent"] *)
Definition add_or_fail (c : bool * CollectionPtr) (name what : string)
    (st : LCEvent * list Diagnostic) : LCEvent * list Diagnostic :=
  if negb c.1 && negb (collection_size st.1 c.2 =? 0) then
    (addCollection st.1 c.2 name, st.2)
  else
    (st.1, st.2 ++ [CoutFailed what]).

Definition register (h : HandOver) (log : list Diagnostic) : LCEvent * list Diagnostic :=
  add_or_fail (ho_tot h) TOT_COLLECTION_NAME "tot"
    (add_or_fail (ho_trigger h) TRIGGER_COLLECTION_NAME "trigger"
       (add_or_fail (ho_mupix h) MUPIX_COLLECTION_NAME "Mupix" (ho_dest h, log))).

(** Everything after the casts succeeded, for the readout cycles [cycles]. *)
Definition convert_cycles (dest : LCEvent) (cm ct co : bool * CollectionPtr)
    (cycles : list RawDataEvent) : LCIOResult :=
  let g := gather cycles in
  let '(dest, log) := register (push_frames dest cm ct co g) (written g) in
  mkLCIOResult true dest log.

(** Two readout cycles. *)
Definition GetLCIOSubEvent2 (dest : LCEvent) (ev next : Event) : LCIOResult :=
  if IsBORE ev then
    mkLCIOResult true dest [EUDAQ_ERROR "got BORE during lcio conversion"]
  else if IsEORE ev then
    mkLCIOResult true dest [EUDAQ_WARN "got EORE during lcio conversion"]
  else
    let cm := get_or_new dest MUPIX_COLLECTION_NAME in
    let ct := get_or_new dest TRIGGER_COLLECTION_NAME in
    let co := get_or_new dest TOT_COLLECTION_NAME in
    match dynamic_cast_raw ev with
    | Some source =>
        match dynamic_cast_raw next with
        | Some next_source => convert_cycles dest cm ct co [source; next_source]
        | None => mkLCIOResult true dest []
        end
    | None => mkLCIOResult true dest []
    end.

(** Three readout cycles. *)
Definition GetLCIOSubEvent3 (dest : LCEvent) (ev next nextNext : Event) : LCIOResult :=
  if IsBORE ev then
    mkLCIOResult true dest [EUDAQ_ERROR "got BORE during lcio conversion"]
  else if IsEORE ev then
    mkLCIOResult true dest [EUDAQ_WARN "got EORE during lcio conversion"]
  else
    let cm := get_or_new dest MUPIX_COLLECTION_NAME in
    let ct := get_or_new dest TRIGGER_COLLECTION_NAME in
    let co := get_or_new dest TOT_COLLECTION_NAME in
    match dynamic_cast_raw ev with
    | Some source =>
        match dynamic_cast_raw next with
        | Some next_source =>
            match dynamic_cast_raw nextNext with
            | Some nextNext_source =>
                convert_cycles dest cm ct co [source; next_source; nextNext_source]
            | None => mkLCIOResult true dest []
            end
        | None => mkLCIOResult true dest []
        end
    | None => mkLCIOResult true dest []
    end.

(** *** The entries in the order they arrive *)

(** The decoded blocks of one readout cycle, in block order. *)
Definition cycle_frames (source : RawDataEvent) : list TelescopeFrame :=
  map (λ blk, from_bytes (block_data blk)) (raw_blocks source).

(** The decoded blocks of a window: cycle after cycle, block after block. *)
Definition window_frames (cycles : list RawDataEvent) : list TelescopeFrame :=
  concat (map cycle_frames cycles).

(** Every hit of these blocks with the block it came from, block after block
    and in the order of the block. *)
Definition arrival_hits (frames : list TelescopeFrame) : list (TelescopeFrame * RawHit) :=
  concat (map (λ data, map (pair data) (frame_hits data)) frames).

Definition arrival_triggers (frames : list TelescopeFrame) : list RawTrigger :=
  concat (map frame_triggers frames).

Definition arrival_tots (frames : list TelescopeFrame) : list RawTimeOverThreshold :=
  concat (map frame_tots frames).

(** All hits of some blocks, block after block, and of a raw event. *)
Definition hits_in_blocks (blocks : list RawBlock) : list RawHit :=
  concat (map frame_hits (map (λ blk, from_bytes (block_data blk)) blocks)).

Definition event_hits (source : RawDataEvent) : list RawHit :=
  hits_in_blocks (raw_blocks source).

(** *** The records as the arrival order dictates them *)

(** One pixel for every hit inside the sensor, one trigger entry for every
    trigger, one packed entry for every time over threshold, one line for
    every hit outside of the sensor; each list in the order of arrival. *)
Definition in_arrival_order (frames : list TelescopeFrame) : Gathered :=
  mkGathered
    (map (λ dh, mu_pixel dh.1 dh.2)
         (List.filter (λ dh, hit_in_sensor dh.2) (arrival_hits frames)))
    (map eutel_trigger (arrival_triggers frames))
    (map eutel_tot (arrival_tots frames))
    (map (λ dh, hit_warning dh.2)
         (List.filter (λ dh, negb (hit_in_sensor dh.2)) (arrival_hits frames))).

(** The line of a stream whose collection was met in the event. *)
Definition failed_lines (dest : LCEvent) (name what : string) : list Diagnostic :=
  match dest !! name with
  | Some _ => [CoutFailed what]
  | None => []
  end.

(** The event after a conversion: every one of the three collections holds
    what it held before, followed by the new frame. *)
Definition handed_over (dest : LCEvent) (g : Gathered) : LCEvent :=
  <[TOT_COLLECTION_NAME := default [] (dest !! TOT_COLLECTION_NAME) ++ [tot_frame_of g]]>
    (<[TRIGGER_COLLECTION_NAME :=
         default [] (dest !! TRIGGER_COLLECTION_NAME) ++ [trigger_frame_of g]]>
       (<[MUPIX_COLLECTION_NAME :=
            default [] (dest !! MUPIX_COLLECTION_NAME) ++ [mupix_frame_of g]]> dest)).

(** The result of a conversion whose casts succeeded: the frames of the
    arrival order handed over, the lines of the hits outside of the sensor
    and then one line for every collection that was already there. *)
Definition converted (dest : LCEvent) (cycles : list RawDataEvent) : LCIOResult :=
  let g := in_arrival_order (window_frames cycles) in
  mkLCIOResult true (handed_over dest g)
    (written g ++ failed_lines dest MUPIX_COLLECTION_NAME "Mupix"
               ++ failed_lines dest TRIGGER_COLLECTION_NAME "trigger"
               ++ failed_lines dest TOT_COLLECTION_NAME "tot").

(** A pixel whose stored coordinates lie in the sensor: the first below 40,
    the second below 32. *)
Definition stored_in_range (pixel : EUTelMuPixel) : bool :=
  (px_x pixel <? 40)%N && (px_y pixel <? 32)%N.

(** The pixel list of a plane by the words of the specification: a hit at
    row 0 and column 0 with column at most 31 and row at most 39 leaves its
    position unset, any other hit sets it. *)
Definition quicklook_drops (hit : RawHit) : bool :=
  (hit_row hit =? 0)%N && (hit_column hit =? 0)%N
  && (hit_column hit <=? 31)%N && (hit_row hit <=? 39)%N.

Definition plane_slot (hit : RawHit) : option PlanePixel :=
  if quicklook_drops hit then None
  else Some (mkPlanePixel (hit_row hit) (hit_column hit) MUPIX_SENSOR_BINARY_SIGNAL).

Definition is_set (slot : option PlanePixel) : bool :=
  match slot with Some _ => true | None => false end.

End Converter.

Definition gathered_app (g1 g2 : Gathered) : Gathered :=
  mkGathered (pixels g1 ++ pixels g2) (triggers g1 ++ triggers g2)
             (tots g1 ++ tots g2) (written g1 ++ written g2).

(** ** The rest of the plugin *)

(** How a call of [GetTriggerID] ends: with an [unsigned], at the end of the
    body without a [return], or at an access outside of the block vector. *)
Inductive IDOutcome :=
| ReturnsID (id : N)
| NoReturnID
| OutOfRangeID.

(** [(unsigned)(-1)] *)
Definition unsigned_minus_one : N := 4294967295.

(** [GetTriggerID]: no trigger id for the run markers; else the id of the
    trailing block, read twice. *)
Definition GetTriggerID (ev : Event) : IDOutcome :=
  match dynamic_cast_raw ev with
  | Some rev =>
      if raw_bore rev || raw_eore rev then ReturnsID unsigned_minus_one
      else
        match GetID_last rev with
        | None => OutOfRangeID
        | Some id =>
            if (id =? unsigned_minus_one)%N then ReturnsID unsigned_minus_one
            else
              match GetID_last rev with
              | None => OutOfRangeID
              | Some id' => ReturnsID id'
              end
        end
  | None => NoReturnID
  end.

(** ** A small run *)

(** One block with two hits inside of the sensor (one of them at the
    origin), one outside of it, a TLU trigger and a time over threshold. *)
Definition example_frame : TelescopeFrame :=
  mkFrame 7 [mkRawHit 0 0 9; mkRawHit 5 10 8; mkRawHit 45 3 1]
          [mkRawTrigger 100 0x1] [mkRawTot 200 3].

Definition example_decoder (bytes : list byte) : TelescopeFrame :=
  match bytes with
  | [] => mkFrame 0 [] [] []
  | _ => example_frame
  end.

Definition example_event : RawDataEvent := mkRaw false false [mkBlock 101 [x01]].
Definition early_event : RawDataEvent := mkRaw false false [mkBlock 100 [x01]].
Definition empty_event : RawDataEvent := mkRaw false false [].
Definition bore_event : RawDataEvent := mkRaw true false [].
Definition eore_event : RawDataEvent := mkRaw false true [].

(** * Properties *)

(** ** Packing of a time over threshold *)

(** Bit [n] of a packed word: the length below 8, the time stamp from 8 up
    to 56, nothing above. *)
Lemma pack_tot_bits timestamp len n :
  N.testbit (pack_tot timestamp len) n =
  if (n <? 8)%N then N.testbit len n
  else if (n <? 56)%N then N.testbit timestamp (n - 8)
  else false.
Proof.
  unfold pack_tot.
  change 0xFFFFFFFFFFFF%N with (N.ones 48). change 0xFF%N with (N.ones 8).
  rewrite N.lor_spec, !N.land_spec.
  destruct (N.ltb_spec n 8) as [H8 | H8].
  - rewrite N.shiftl_spec_low by assumption.
    rewrite N.ones_spec_low by assumption. cbn. apply andb_true_r.
  - rewrite N.shiftl_spec_high' by assumption.
    rewrite N.land_spec.
    rewrite (N.ones_spec_high 8 n) by assumption.
    rewrite andb_false_r, orb_false_r.
    destruct (N.ltb_spec n 56) as [H56 | H56].
    + rewrite N.ones_spec_low by lia. apply andb_true_r.
    + rewrite N.ones_spec_high by lia. apply andb_false_r.
Qed.

Lemma tot_word_no_wrap tot :
  tot_word tot = pack_tot (tot_timestamp tot) (tot_length tot).
Proof.
  unfold tot_word. apply N.bits_inj. intros n.
  destruct (N.ltb_spec n 64) as [H | H].
  - apply N.mod_pow2_bits_low; assumption.
  - rewrite N.mod_pow2_bits_high by assumption.
    rewrite pack_tot_bits.
    destruct (N.ltb_spec n 8); [lia |]. destruct (N.ltb_spec n 56); [lia | reflexivity].
Qed.

(** Bits of a number below a power of two vanish from that power on. *)
Lemma testbit_above (a k n : N) : (a < 2 ^ k)%N → (k ≤ n)%N → N.testbit a n = false.
Proof.
  intros Ha Hn. rewrite <- (N.mod_small a (2 ^ k)) by assumption.
  apply N.mod_pow2_bits_high. assumption.
Qed.

Lemma tot_word_timestamp_back tot :
  (tot_timestamp tot < 2 ^ 48)%N → N.shiftr (tot_word tot) 8 = tot_timestamp tot.
Proof.
  intros Ht. rewrite tot_word_no_wrap. apply N.bits_inj. intros n.
  rewrite N.shiftr_spec', pack_tot_bits.
  destruct (N.ltb_spec (n + 8) 8); [lia |].
  replace (n + 8 - 8)%N with n by lia.
  destruct (N.ltb_spec (n + 8) 56); [reflexivity |].
  symmetry. apply (testbit_above _ 48); [assumption | lia].
Qed.

Lemma tot_word_length_back tot :
  (tot_length tot < 2 ^ 8)%N → N.land (tot_word tot) 0xFF = tot_length tot.
Proof.
  intros Hl. rewrite tot_word_no_wrap. apply N.bits_inj. intros n.
  change 0xFF%N with (N.ones 8).
  rewrite N.land_spec, pack_tot_bits.
  destruct (N.ltb_spec n 8) as [H | H].
  - rewrite N.ones_spec_low by assumption. apply andb_true_r.
  - rewrite N.ones_spec_high by assumption. rewrite andb_false_r.
    symmetry. apply (testbit_above _ 8); assumption.
Qed.

(** ** What the loops of the aggregation gather *)

Section Gathering.

Variable from_bytes : list byte → TelescopeFrame.

Lemma add_triggers_eq data g :
  add_triggers data g =
  mkGathered (pixels g) (triggers g ++ map eutel_trigger (frame_triggers data))
             (tots g) (written g).
Proof.
  unfold add_triggers. revert g.
  induction (frame_triggers data) as [| trig l IH]; intros g; cbn.
  - rewrite app_nil_r. by destruct g.
  - rewrite IH. cbn. by rewrite <- app_assoc.
Qed.

Lemma add_tots_eq data g :
  add_tots data g =
  mkGathered (pixels g) (triggers g) (tots g ++ map eutel_tot (frame_tots data))
             (written g).
Proof.
  unfold add_tots. revert g.
  induction (frame_tots data) as [| tot l IH]; intros g; cbn.
  - rewrite app_nil_r. by destruct g.
  - rewrite IH. cbn. by rewrite <- app_assoc.
Qed.

Lemma add_hits_eq data g :
  add_hits data g =
  mkGathered
    (pixels g ++ map (mu_pixel data) (List.filter hit_in_sensor (frame_hits data)))
    (triggers g) (tots g)
    (written g ++ map hit_warning
                      (List.filter (λ hit, negb (hit_in_sensor hit)) (frame_hits data))).
Proof.
  unfold add_hits. revert g.
  induction (frame_hits data) as [| hit l IH]; intros g; cbn.
  - rewrite !app_nil_r. by destruct g.
  - rewrite IH. destruct (hit_in_sensor hit); cbn; by rewrite <- app_assoc.
Qed.

Lemma filter_pair {A B} (P : B → bool) (a : A) (l : list B) :
  List.filter (λ ab, P ab.2) (map (pair a) l) = map (pair a) (List.filter P l).
Proof.
  induction l as [| b l IH]; cbn; [done |].
  destruct (P b); cbn; by rewrite IH.
Qed.

Lemma in_arrival_order_app frames1 frames2 :
  in_arrival_order (frames1 ++ frames2) =
  gathered_app (in_arrival_order frames1) (in_arrival_order frames2).
Proof.
  unfold in_arrival_order, gathered_app, arrival_hits, arrival_triggers, arrival_tots.
  cbn. by rewrite !map_app, !concat_app, !List.filter_app, !map_app.
Qed.

Lemma gathered_app_nil_l g : gathered_app (mkGathered [] [] [] []) g = g.
Proof. by destruct g. Qed.

Lemma gathered_app_assoc g1 g2 g3 :
  gathered_app (gathered_app g1 g2) g3 = gathered_app g1 (gathered_app g2 g3).
Proof. unfold gathered_app. cbn. by rewrite <- !app_assoc. Qed.

Lemma read_block_eq data g :
  add_hits data (add_tots data (add_triggers data g)) =
  gathered_app g (in_arrival_order [data]).
Proof.
  rewrite add_hits_eq, add_tots_eq, add_triggers_eq.
  unfold gathered_app, in_arrival_order, arrival_hits, arrival_triggers, arrival_tots.
  cbn. rewrite !app_nil_r, (filter_pair hit_in_sensor).
  rewrite (filter_pair (λ hit, negb (hit_in_sensor hit))), !map_map. done.
Qed.

Lemma read_blocks_eq source g :
  read_blocks from_bytes source g =
  gathered_app g (in_arrival_order (cycle_frames from_bytes source)).
Proof.
  unfold read_blocks, cycle_frames. revert g.
  induction (raw_blocks source) as [| blk l IH]; intros g.
  - destruct g. unfold gathered_app. cbn. by rewrite !app_nil_r.
  - cbn [foldl map]. rewrite IH, read_block_eq, gathered_app_assoc.
    by rewrite <- in_arrival_order_app.
Qed.

Lemma gather_from g cycles :
  foldl (λ g source, read_blocks from_bytes source g) g cycles =
  gathered_app g (in_arrival_order (window_frames from_bytes cycles)).
Proof.
  unfold window_frames. revert g.
  induction cycles as [| source l IH]; intros g.
  - destruct g. unfold gathered_app. cbn. by rewrite !app_nil_r.
  - cbn [foldl map concat]. rewrite IH, read_blocks_eq, gathered_app_assoc.
    by rewrite <- in_arrival_order_app.
Qed.

(** The loops gather the records of the arrival order. *)
Lemma gather_eq cycles :
  gather from_bytes cycles = in_arrival_order (window_frames from_bytes cycles).
Proof. unfold gather. by rewrite gather_from, gathered_app_nil_l. Qed.

End Gathering.

(** ** Handing the frames over to the collections *)

Lemma names_mupix_trigger : MUPIX_COLLECTION_NAME ≠ TRIGGER_COLLECTION_NAME.
Proof. discriminate. Qed.

Lemma names_mupix_tot : MUPIX_COLLECTION_NAME ≠ TOT_COLLECTION_NAME.
Proof. discriminate. Qed.

Lemma names_trigger_tot : TRIGGER_COLLECTION_NAME ≠ TOT_COLLECTION_NAME.
Proof. discriminate. Qed.

Ltac lookup_inserts :=
  repeat first [ rewrite lookup_insert_eq
               | rewrite lookup_insert_ne by congruence ].

Lemma alter_as_insert (dest : LCEvent) name l frame :
  dest !! name = Some l →
  alter (λ l, l ++ [frame]) name dest = <[name := l ++ [frame]]> dest.
Proof.
  intros H. apply map_eq. intros k.
  destruct (decide (name = k)) as [<- | Hne].
  - by rewrite lookup_alter_eq, lookup_insert_eq, H.
  - by rewrite lookup_alter_ne, lookup_insert_ne.
Qed.

Lemma add_or_fail_exists c name what dest log :
  add_or_fail (true, c) name what (dest, log) = (dest, log ++ [CoutFailed what]).
Proof. reflexivity. Qed.

Lemma add_or_fail_fresh frame name what dest log :
  add_or_fail (false, Fresh [frame]) name what (dest, log) =
  (<[name := [frame]]> dest, log).
Proof. reflexivity. Qed.

Lemma hand_over_eq (dest : LCEvent) (g : Gathered) (log : list Diagnostic) :
  register
    (push_frames dest (get_or_new dest MUPIX_COLLECTION_NAME)
                 (get_or_new dest TRIGGER_COLLECTION_NAME)
                 (get_or_new dest TOT_COLLECTION_NAME) g) log =
  (handed_over dest g,
   log ++ failed_lines dest MUPIX_COLLECTION_NAME "Mupix"
       ++ failed_lines dest TRIGGER_COLLECTION_NAME "trigger"
       ++ failed_lines dest TOT_COLLECTION_NAME "tot").
Proof.
  pose proof names_mupix_trigger as Hmt.
  pose proof names_mupix_tot as Hmo.
  pose proof names_trigger_tot as Hto.
  unfold register, push_frames, get_or_new, handed_over, failed_lines.
  destruct (dest !! MUPIX_COLLECTION_NAME) as [lm |] eqn:Hm;
  destruct (dest !! TRIGGER_COLLECTION_NAME) as [lt |] eqn:Ht;
  destruct (dest !! TOT_COLLECTION_NAME) as [lo |] eqn:Ho;
  cbn [fst snd push_back ho_dest ho_mupix ho_trigger ho_tot default id];
  cbn [app];
  repeat first [rewrite add_or_fail_exists | rewrite add_or_fail_fresh];
  rewrite ?app_nil_r, <- ?app_assoc; cbn [app];
  f_equal.
  all: repeat match goal with
       | |- context [alter _ ?n ?m] =>
           erewrite (alter_as_insert m n) by (lookup_inserts; eassumption)
       end.
  all: apply map_eq; intros k.
  all: destruct (decide (k = MUPIX_COLLECTION_NAME)) as [-> | ?]; [by lookup_inserts |].
  all: destruct (decide (k = TRIGGER_COLLECTION_NAME)) as [-> | ?]; [by lookup_inserts |].
  all: destruct (decide (k = TOT_COLLECTION_NAME)) as [-> | ?]; by lookup_inserts.
Qed.

Section Aggregation.

Variable from_bytes : list byte → TelescopeFrame.

Lemma convert_cycles_eq dest cycles :
  convert_cycles from_bytes dest (get_or_new dest MUPIX_COLLECTION_NAME)
                 (get_or_new dest TRIGGER_COLLECTION_NAME)
                 (get_or_new dest TOT_COLLECTION_NAME) cycles =
  converted from_bytes dest cycles.
Proof.
  unfold convert_cycles, converted. rewrite gather_eq.
  by rewrite hand_over_eq.
Qed.

Lemma GetLCIOSubEvent2_raw dest source next_source :
  raw_bore source = false → raw_eore source = false →
  GetLCIOSubEvent2 from_bytes dest (Raw source) (Raw next_source) =
  converted from_bytes dest [source; next_source].
Proof.
  intros Hb He. unfold GetLCIOSubEvent2. cbn [IsBORE IsEORE dynamic_cast_raw].
  rewrite Hb, He. apply convert_cycles_eq.
Qed.

Lemma GetLCIOSubEvent3_raw dest source next_source nextNext_source :
  raw_bore source = false → raw_eore source = false →
  GetLCIOSubEvent3 from_bytes dest (Raw source) (Raw next_source) (Raw nextNext_source) =
  converted from_bytes dest [source; next_source; nextNext_source].
Proof.
  intros Hb He. unfold GetLCIOSubEvent3. cbn [IsBORE IsEORE dynamic_cast_raw].
  rewrite Hb, He. apply convert_cycles_eq.
Qed.

Lemma handed_over_mupix dest g :
  handed_over dest g !! MUPIX_COLLECTION_NAME =
  Some (default [] (dest !! MUPIX_COLLECTION_NAME) ++ [mupix_frame_of g]).
Proof.
  pose proof names_mupix_trigger. pose proof names_mupix_tot.
  unfold handed_over. by lookup_inserts.
Qed.

Lemma handed_over_trigger dest g :
  handed_over dest g !! TRIGGER_COLLECTION_NAME =
  Some (default [] (dest !! TRIGGER_COLLECTION_NAME) ++ [trigger_frame_of g]).
Proof.
  pose proof names_trigger_tot. unfold handed_over. by lookup_inserts.
Qed.

Lemma handed_over_tot dest g :
  handed_over dest g !! TOT_COLLECTION_NAME =
  Some (default [] (dest !! TOT_COLLECTION_NAME) ++ [tot_frame_of g]).
Proof. unfold handed_over. by lookup_inserts. Qed.

Lemma handed_over_other dest g name :
  name ≠ MUPIX_COLLECTION_NAME → name ≠ TRIGGER_COLLECTION_NAME →
  name ≠ TOT_COLLECTION_NAME →
  handed_over dest g !! name = dest !! name.
Proof. intros. unfold handed_over. by lookup_inserts. Qed.

End Aggregation.

(** ** The plane of the quick-look conversion *)

Section QuickLook.

Variable from_bytes : list byte → TelescopeFrame.

Lemma quicklook_keeps_drops hit :
  quicklook_keeps (hit_column hit) (hit_row hit) = negb (quicklook_drops hit).
Proof.
  unfold quicklook_keeps, quicklook_drops.
  destruct (N.eqb_spec (hit_column hit) 0) as [-> | ?];
  destruct (N.eqb_spec (hit_row hit) 0) as [-> | ?]; cbn; try reflexivity.
  all: rewrite ?andb_false_r; try reflexivity.
Qed.

Lemma count_hits_from n blocks :
  foldl (λ nhits blk, nhits + num_hits (from_bytes (block_data blk))) n blocks =
  n + length (hits_in_blocks from_bytes blocks).
Proof.
  unfold hits_in_blocks. revert n. induction blocks as [| blk l IH]; intros n; cbn.
  - lia.
  - rewrite IH, length_app. unfold num_hits. lia.
Qed.

Lemma count_hits_eq source :
  count_hits from_bytes source = length (event_hits from_bytes source).
Proof. unfold count_hits, event_hits. by rewrite count_hits_from. Qed.

(** The loop over one block fills the positions of its hits and leaves the
    others as they are. *)
Lemma set_block_pixels_eq hits : ∀ nhits j plane pre post,
  plane_pixels plane = pre ++ replicate (length hits) None ++ post →
  length pre = nhits + j →
  set_block_pixels hits nhits j plane =
  Some (with_pixels plane (pre ++ map plane_slot hits ++ post)).
Proof.
  induction hits as [| hit l IH]; intros nhits j plane pre post Hpix Hlen.
  - cbn in *. rewrite <- Hpix. by destruct plane.
  - cbn [set_block_pixels].
    rewrite quicklook_keeps_drops.
    cbn [length replicate app] in Hpix.
    destruct (quicklook_drops hit) eqn:Hd; cbn [negb mbind option_bind].
    + assert (Hs : plane_slot hit = None) by (unfold plane_slot; by rewrite Hd).
      erewrite (IH nhits (S j) plane (pre ++ [None]) post).
      * cbn [map]. rewrite Hs. by rewrite <- app_assoc.
      * rewrite Hpix. by rewrite <- app_assoc.
      * rewrite length_app. cbn. lia.
    + assert (Hs : plane_slot hit =
                   Some (mkPlanePixel (hit_row hit) (hit_column hit)
                                      MUPIX_SENSOR_BINARY_SIGNAL))
        by (unfold plane_slot; by rewrite Hd).
      unfold SetPixel. rewrite Hpix.
      rewrite decide_True by (rewrite length_app; cbn; lia).
      cbn [mbind option_bind].
      replace (nhits + j) with (length pre + 0) by lia.
      rewrite insert_app_r. cbn [insert list_insert].
      erewrite (IH nhits (S j) _ (pre ++ [Some _]) post).
      * cbn [map]. rewrite Hs.
        unfold with_pixels. cbn. by rewrite <- app_assoc.
      * cbn. by rewrite <- app_assoc.
      * rewrite length_app. cbn. lia.
Qed.

Lemma set_pixels_eq blocks : ∀ nhits plane pre,
  plane_pixels plane =
    pre ++ replicate (length (hits_in_blocks from_bytes blocks)) None →
  length pre = nhits →
  set_pixels from_bytes blocks nhits plane =
  Some (with_pixels plane (pre ++ map plane_slot (hits_in_blocks from_bytes blocks))).
Proof.
  unfold hits_in_blocks.
  induction blocks as [| blk l IH]; intros nhits plane pre Hpix Hlen.
  - cbn in *. rewrite <- Hpix. by destruct plane.
  - cbn [set_pixels map concat] in *.
    rewrite length_app, replicate_add in Hpix.
    erewrite set_block_pixels_eq; [| exact Hpix | lia].
    cbn [mbind option_bind].
    erewrite (IH _ _ (pre ++ map plane_slot (frame_hits (from_bytes (block_data blk))))).
    + unfold with_pixels. cbn. by rewrite map_app, <- app_assoc.
    + cbn. by rewrite <- app_assoc.
    + rewrite length_app, length_map. unfold num_hits. lia.
Qed.

(** The plane before the test on the trigger id: the declared size is the
    number of all hits, and position [i] holds what hit [i] leaves there. *)
Lemma build_plane_eq source tlu :
  build_plane from_bytes source tlu =
  Some (mkPlane MUPIX_SENSOR_ID MUPIX_EVENT_TYPE MUPIX_SENSOR_TYPE
                MUPIX_SENSOR_NUM_COLS MUPIX_SENSOR_NUM_ROWS tlu
                (map plane_slot (event_hits from_bytes source))).
Proof.
  unfold build_plane.
  erewrite (set_pixels_eq _ 0 _ []).
  - reflexivity.
  - cbn. by rewrite count_hits_eq.
  - reflexivity.
Qed.

End QuickLook.

Section QuickLookResult.

Variable from_bytes : list byte → TelescopeFrame.

Lemma GetStandardSubEvent_raw dest source tlu :
  raw_bore source = false → raw_eore source = false → GetID_last source = Some tlu →
  ∃ plane,
    build_plane from_bytes source tlu = Some plane ∧
    GetStandardSubEvent from_bytes dest (Raw source) =
    mkStandardResult (Returns true)
      (dest ++ [if (100 <? tlu)%N then plane else empty_plane tlu]) [].
Proof.
  intros Hb He Hid. eexists. split; [apply build_plane_eq |].
  unfold GetStandardSubEvent. cbn [dynamic_cast_raw].
  rewrite Hb, He, Hid, build_plane_eq. by destruct (100 <? tlu)%N.
Qed.

(** A raw event without blocks has no trailing block to take the trigger id
    from: nothing is attached and nothing returned. *)
Lemma GetStandardSubEvent_no_block dest source :
  raw_bore source = false → raw_eore source = false → raw_blocks source = [] →
  GetStandardSubEvent from_bytes dest (Raw source) = mkStandardResult OutOfRange dest [].
Proof.
  intros Hb He Hn. unfold GetStandardSubEvent, GetID_last, NumBlocks.
  cbn [dynamic_cast_raw]. by rewrite Hb, He, Hn.
Qed.

Lemma plane_slot_lookup source i hit :
  event_hits from_bytes source !! i = Some hit →
  map plane_slot (event_hits from_bytes source) !! i = Some (plane_slot hit).
Proof. intros H. by rewrite list_lookup_fmap, H. Qed.

(** The positions set are those of the hits that are not dropped. *)
Lemma set_positions (hits : list RawHit) :
  length (List.filter is_set (map plane_slot hits)) =
  length (List.filter (λ hit, negb (quicklook_drops hit)) hits).
Proof.
  induction hits as [| hit l IH]; cbn; [done |].
  unfold plane_slot at 1. destruct (quicklook_drops hit); cbn; by rewrite IH.
Qed.

Lemma filter_shorter {A} (P : A → bool) (l : list A) x :
  x ∈ l → P x = false → length (List.filter P l) < length l.
Proof.
  intros Hin HP. induction Hin as [x l | x y l Hin IH]; cbn.
  - rewrite HP. pose proof (List.filter_length_le P l). lia.
  - specialize (IH HP). destruct (P y); cbn; lia.
Qed.

Lemma hits_in_blocks_app blocks1 blocks2 :
  hits_in_blocks from_bytes (blocks1 ++ blocks2) =
  hits_in_blocks from_bytes blocks1 ++ hits_in_blocks from_bytes blocks2.
Proof. unfold hits_in_blocks. by rewrite !map_app, concat_app. Qed.

(** Hit [j] of a block is the hit at the number of hits of the blocks before
    it plus [j] of the event. *)
Lemma event_hits_position source before blk after j hit :
  raw_blocks source = before ++ blk :: after →
  frame_hits (from_bytes (block_data blk)) !! j = Some hit →
  event_hits from_bytes source !! (length (hits_in_blocks from_bytes before) + j) = Some hit.
Proof.
  intros Hsplit Hj. unfold event_hits. rewrite Hsplit, hits_in_blocks_app.
  rewrite lookup_app_r by lia.
  replace (length (hits_in_blocks from_bytes before) + j
           - length (hits_in_blocks from_bytes before)) with j by lia.
  unfold hits_in_blocks. cbn [map concat].
  by rewrite lookup_app_l by (by apply lookup_lt_Some in Hj).
Qed.

End QuickLookResult.

(** The id read by [GetID(NumBlocks()-1)] is that of the last block. *)
Lemma GetID_last_trailing source :
  GetID_last source = block_id <$> last (raw_blocks source).
Proof.
  unfold GetID_last, GetID, NumBlocks.
  destruct (raw_blocks source) as [| blk l _] using rev_ind; [done |].
  rewrite length_app, last_snoc. cbn [length].
  replace (length l + 1) with (S (length l)) by lia.
  rewrite lookup_app_r by lia. by rewrite Nat.sub_diag.
Qed.

(** * The claims *)

(** C4.  A time over threshold is added as the word
    [(timestamp & 0xFFFFFFFFFFFF) << 8 | (length & 0xFF)] under the label
    0x2.  A time stamp below 2^48 and a length below 2^8 are read back from
    the word unchanged (shift right by 8, mask 0xFF), and the time stamp
    2^48 is masked to 0, which leaves the length alone in the word. *)
Theorem tot_entry_packs_timestamp_and_length (tot : RawTimeOverThreshold) :
  eutel_tot tot =
    mkExternalTrigger
      (N.lor (N.shiftl (N.land (tot_timestamp tot) 0xFFFFFFFFFFFF) 8)
             (N.land (tot_length tot) 0xFF)) 0x2
  ∧ ((tot_timestamp tot < 2 ^ 48)%N → (tot_length tot < 2 ^ 8)%N →
     N.shiftr (ext_timestamp (eutel_tot tot)) 8 = tot_timestamp tot
     ∧ N.land (ext_timestamp (eutel_tot tot)) 0xFF = tot_length tot)
  ∧ (tot_timestamp tot = (2 ^ 48)%N →
     N.land (tot_timestamp tot) 0xFFFFFFFFFFFF = 0%N
     ∧ ext_timestamp (eutel_tot tot) = N.land (tot_length tot) 0xFF).
Proof.
  split; [| split].
  - unfold eutel_tot. by rewrite tot_word_no_wrap.
  - intros Ht Hl. cbn [eutel_tot ext_timestamp].
    split; [by apply tot_word_timestamp_back | by apply tot_word_length_back].
  - intros Ht. cbn [eutel_tot ext_timestamp].
    rewrite tot_word_no_wrap. unfold pack_tot. rewrite Ht. split; reflexivity.
Qed.

Lemma tot_entry_packs_timestamp_and_length_witness :
  eutel_tot (mkRawTot 200 3) = mkExternalTrigger 51203 0x2
  ∧ N.shiftr 51203 8 = 200%N ∧ N.land 51203 0xFF = 3%N
  ∧ ext_timestamp (eutel_tot (mkRawTot (2 ^ 48) 3)) = 3%N.
Proof.
  destruct (tot_entry_packs_timestamp_and_length (mkRawTot 200 3)) as (He & Hback & _).
  destruct (tot_entry_packs_timestamp_and_length (mkRawTot (2 ^ 48) 3)) as (_ & _ & Hcut).
  split; [exact He |].
  destruct Hback as [Hts Hlen]; [reflexivity | reflexivity |].
  destruct Hcut as [_ Hword]; [reflexivity |].
  split; [exact Hts | split; [exact Hlen | exact Hword]].
Defined.

Section QuickLookClaims.

Variable from_bytes : list byte → TelescopeFrame.

(** C5.  The quick-look test [!(col==0&&row==0) || col>31 || row>39] drops a
    hit exactly when row = 0 and col = 0 and col <= 31 and row <= 39.  In the
    plane built from a raw event the position of such a hit stays unset and
    every other hit sets its position, with its row, its column and the
    binary signal; this plane is the one attached when the trigger id is
    above the threshold. *)
Theorem quicklook_drops_the_origin_hit (source : RawDataEvent) (tlu : N) :
  (∀ hit, quicklook_keeps (hit_column hit) (hit_row hit) = negb (quicklook_drops hit))
  ∧ ∃ plane,
      build_plane from_bytes source tlu = Some plane
      ∧ (∀ i hit, event_hits from_bytes source !! i = Some hit →
           (quicklook_drops hit = true → plane_pixels plane !! i = Some None)
           ∧ (quicklook_drops hit = false →
              plane_pixels plane !! i =
              Some (Some (mkPlanePixel (hit_row hit) (hit_column hit) 1))))
      ∧ (∀ dest, raw_bore source = false → raw_eore source = false →
           GetID_last source = Some tlu → (100 < tlu)%N →
           std_dest (GetStandardSubEvent from_bytes dest (Raw source)) = dest ++ [plane]).
Proof.
  split; [apply quicklook_keeps_drops |].
  eexists. split; [apply build_plane_eq |]. split.
  - intros i hit Hi. cbn [plane_pixels].
    rewrite (plane_slot_lookup _ _ _ _ Hi). unfold plane_slot.
    split; intros ->; reflexivity.
  - intros dest Hb He Hid Htlu.
    destruct (GetStandardSubEvent_raw from_bytes dest source tlu Hb He Hid)
      as (plane & Hplane & ->).
    rewrite build_plane_eq in Hplane. injection Hplane as <-.
    cbn [std_dest]. apply N.ltb_lt in Htlu. by rewrite Htlu.
Qed.

(** C6.  A raw event that is no run marker, with a trailing block: the
    conversion returns true, logs nothing and attaches exactly one plane
    behind the planes of the destination.  When the id of the trailing block
    is above 100 this is the populated plane: sensor 71, size 40 x 32, that
    id, as many positions as hits were decoded, and at the position of each
    hit its row, column and the binary signal if the test of the second loop
    keeps it, nothing else.  Otherwise it is the empty plane: same sensor,
    same size, same id, no position at all.  (An event without any block has
    no trailing block: the id is looked up outside of the block vector and no
    plane is attached.) *)
Theorem one_plane_is_attached (dest : StandardEvent) (source : RawDataEvent) :
  raw_bore source = false → raw_eore source = false →
  (∀ trailing, last (raw_blocks source) = Some trailing →
     GetStandardSubEvent from_bytes dest (Raw source) =
       mkStandardResult (Returns true)
         (dest ++
          [if (100 <? block_id trailing)%N then
             mkPlane MUPIX_SENSOR_ID MUPIX_EVENT_TYPE MUPIX_SENSOR_TYPE 40 32
               (block_id trailing)
               (map (λ hit,
                       if quicklook_keeps (hit_column hit) (hit_row hit)
                       then Some (mkPlanePixel (hit_row hit) (hit_column hit)
                                               MUPIX_SENSOR_BINARY_SIGNAL)
                       else None)
                    (event_hits from_bytes source))
           else
             mkPlane MUPIX_SENSOR_ID MUPIX_EVENT_TYPE MUPIX_SENSOR_TYPE 40 32
               (block_id trailing) []]) []
     ∧ length (std_dest (GetStandardSubEvent from_bytes dest (Raw source)))
       = S (length dest))
  ∧ (raw_blocks source = [] →
     GetStandardSubEvent from_bytes dest (Raw source) =
     mkStandardResult OutOfRange dest []).
Proof.
  intros Hb He. split.
  - intros trailing Hlast.
    assert (Hid : GetID_last source = Some (block_id trailing))
      by (by rewrite GetID_last_trailing, Hlast).
    destruct (GetStandardSubEvent_raw from_bytes dest source _ Hb He Hid)
      as (plane & Hplane & ->).
    rewrite build_plane_eq in Hplane. injection Hplane as <-.
    cbn [std_dest]. rewrite length_app. cbn [length]. split; [| lia].
    do 2 f_equal. unfold empty_plane. cbn.
    destruct (100 <? block_id trailing)%N; [| reflexivity].
    do 2 f_equal. apply map_ext. intros hit. unfold plane_slot.
    rewrite quicklook_keeps_drops. by destruct (quicklook_drops hit).
  - intros Hn. by apply GetStandardSubEvent_no_block.
Qed.

(** C7.  A raw event flagged as begin of run is not converted: the
    quick-look conversion and both aggregations leave the destination as it
    is, log an error and return true.  An end of run marker (flagged end and
    not begin of run) is not converted either: destination unchanged, a
    warning, true. *)
Theorem run_markers_are_not_converted
    (dest_std : StandardEvent) (dest : LCEvent) (source : RawDataEvent)
    (next nextNext : Event) :
  (raw_bore source = true →
     GetStandardSubEvent from_bytes dest_std (Raw source) =
       mkStandardResult (Returns true) dest_std [EUDAQ_ERROR "got BORE during conversion"]
     ∧ GetLCIOSubEvent2 from_bytes dest (Raw source) next =
       mkLCIOResult true dest [EUDAQ_ERROR "got BORE during lcio conversion"]
     ∧ GetLCIOSubEvent3 from_bytes dest (Raw source) next nextNext =
       mkLCIOResult true dest [EUDAQ_ERROR "got BORE during lcio conversion"])
  ∧ (raw_bore source = false → raw_eore source = true →
     GetStandardSubEvent from_bytes dest_std (Raw source) =
       mkStandardResult (Returns true) dest_std [EUDAQ_WARN "got EORE during conversion"]
     ∧ GetLCIOSubEvent2 from_bytes dest (Raw source) next =
       mkLCIOResult true dest [EUDAQ_WARN "got EORE during lcio conversion"]
     ∧ GetLCIOSubEvent3 from_bytes dest (Raw source) next nextNext =
       mkLCIOResult true dest [EUDAQ_WARN "got EORE during lcio conversion"]).
Proof.
  unfold GetStandardSubEvent, GetLCIOSubEvent2, GetLCIOSubEvent3.
  cbn [dynamic_cast_raw IsBORE IsEORE].
  split.
  - intros ->. done.
  - intros -> ->. done.
Qed.

(** C8.  An event that is not a raw event: the quick-look conversion leaves
    the destination alone and logs nothing, but it runs into the end of its
    body without a return statement, so no value, and in particular not
    true, is returned. *)
Theorem quicklook_cast_failure_returns_nothing (dest : StandardEvent) (bore eore : bool) :
  GetStandardSubEvent from_bytes dest (NotRaw bore eore) = mkStandardResult NoReturn dest []
  ∧ std_outcome (GetStandardSubEvent from_bytes dest (NotRaw bore eore)) ≠ Returns true.
Proof. split; [reflexivity | discriminate]. Qed.

(** The aggregations, for comparison: an event of the window that is not a
    raw event makes them return true with the destination as it was. *)
Lemma aggregation_cast_failure_is_a_no_op (dest : LCEvent) (ev next nextNext : Event) :
  (dynamic_cast_raw ev = None ∨ dynamic_cast_raw next = None →
     lcio_return (GetLCIOSubEvent2 from_bytes dest ev next) = true
     ∧ lcio_dest (GetLCIOSubEvent2 from_bytes dest ev next) = dest)
  ∧ (dynamic_cast_raw ev = None ∨ dynamic_cast_raw next = None
     ∨ dynamic_cast_raw nextNext = None →
     lcio_return (GetLCIOSubEvent3 from_bytes dest ev next nextNext) = true
     ∧ lcio_dest (GetLCIOSubEvent3 from_bytes dest ev next nextNext) = dest).
Proof.
  unfold GetLCIOSubEvent2, GetLCIOSubEvent3.
  split; intros H; destruct (IsBORE ev), (IsEORE ev); try done.
  - destruct H as [-> | ->]; [done |]. by destruct (dynamic_cast_raw ev).
  - destruct H as [-> | [-> | ->]]; [done | by destruct (dynamic_cast_raw ev) |].
    by destruct (dynamic_cast_raw ev), (dynamic_cast_raw next).
Qed.

(** C9.  The plane built by the quick-look conversion declares as many hits
    as the blocks decode to, dropped ones included; hit [j] of a block is
    written at the number of hits of the blocks before it plus [j], and a
    dropped hit leaves that position unset.  So with a dropped hit fewer
    positions are set than hits are declared. *)
Theorem declared_hits_count_dropped_hits (source : RawDataEvent) (tlu : N) :
  ∃ plane,
    build_plane from_bytes source tlu = Some plane
    ∧ HitPixels plane = length (event_hits from_bytes source)
    ∧ (∀ before blk after j hit,
         raw_blocks source = before ++ blk :: after →
         frame_hits (from_bytes (block_data blk)) !! j = Some hit →
         plane_pixels plane !! (length (hits_in_blocks from_bytes before) + j) =
         Some (if quicklook_keeps (hit_column hit) (hit_row hit)
               then Some (mkPlanePixel (hit_row hit) (hit_column hit)
                                       MUPIX_SENSOR_BINARY_SIGNAL)
               else None))
    ∧ ((∃ hit, hit ∈ event_hits from_bytes source
               ∧ quicklook_keeps (hit_column hit) (hit_row hit) = false) →
       length (List.filter is_set (plane_pixels plane)) < HitPixels plane)
    ∧ (∀ dest, raw_bore source = false → raw_eore source = false →
         GetID_last source = Some tlu → (100 < tlu)%N →
         std_dest (GetStandardSubEvent from_bytes dest (Raw source)) = dest ++ [plane]).
Proof.
  eexists. split; [apply build_plane_eq |].
  unfold HitPixels. cbn [plane_pixels]. rewrite length_map.
  split; [reflexivity |]. split; [| split].
  - intros before blk after j hit Hsplit Hj.
    rewrite (plane_slot_lookup _ _ _ _ (event_hits_position _ _ _ _ _ _ _ Hsplit Hj)).
    unfold plane_slot. rewrite quicklook_keeps_drops.
    by destruct (quicklook_drops hit).
  - intros (hit & Hin & Hdrop). rewrite set_positions.
    apply (filter_shorter _ _ hit); [exact Hin |].
    by rewrite <- quicklook_keeps_drops.
  - intros dest Hb He Hid Htlu.
    destruct (GetStandardSubEvent_raw from_bytes dest source tlu Hb He Hid)
      as (plane & Hplane & ->).
    rewrite build_plane_eq in Hplane. injection Hplane as <-.
    cbn [std_dest]. apply N.ltb_lt in Htlu. by rewrite Htlu.
Qed.

End QuickLookClaims.

Lemma quicklook_drops_the_origin_hit_witness :
  ∃ plane,
    build_plane example_decoder example_event 101 = Some plane
    ∧ plane_pixels plane !! 0 = Some None
    ∧ plane_pixels plane !! 1 = Some (Some (mkPlanePixel 5 10 1))
    ∧ std_dest (GetStandardSubEvent example_decoder [] (Raw example_event)) = [plane].
Proof.
  destruct (quicklook_drops_the_origin_hit example_decoder example_event 101)
    as (_ & plane & Hplane & Hhits & Hattached).
  exists plane. split; [exact Hplane |].
  split; [| split].
  - exact (proj1 (Hhits 0 (mkRawHit 0 0 9) eq_refl) eq_refl).
  - exact (proj2 (Hhits 1 (mkRawHit 5 10 8) eq_refl) eq_refl).
  - exact (Hattached [] eq_refl eq_refl eq_refl eq_refl).
Defined.

Lemma one_plane_is_attached_witness :
  GetStandardSubEvent example_decoder [] (Raw example_event) =
    mkStandardResult (Returns true)
      [mkPlane 71 "MUPIX7" "MUPIX7" 40 32 101
         [None; Some (mkPlanePixel 5 10 1); Some (mkPlanePixel 45 3 1)]] []
  ∧ GetStandardSubEvent example_decoder [] (Raw early_event) =
    mkStandardResult (Returns true) [mkPlane 71 "MUPIX7" "MUPIX7" 40 32 100 []] [].
Proof.
  split.
  - exact (proj1 (proj1 (one_plane_is_attached example_decoder [] example_event
                           eq_refl eq_refl)
                        (mkBlock 101 [x01]) eq_refl)).
  - exact (proj1 (proj1 (one_plane_is_attached example_decoder [] early_event
                           eq_refl eq_refl)
                        (mkBlock 100 [x01]) eq_refl)).
Defined.

Lemma run_markers_are_not_converted_witness :
  GetStandardSubEvent example_decoder [] (Raw bore_event) =
    mkStandardResult (Returns true) [] [EUDAQ_ERROR "got BORE during conversion"]
  ∧ GetLCIOSubEvent2 example_decoder ∅ (Raw eore_event) (Raw example_event) =
    mkLCIOResult true ∅ [EUDAQ_WARN "got EORE during lcio conversion"].
Proof.
  split.
  - exact (proj1 (proj1 (run_markers_are_not_converted example_decoder [] ∅ bore_event
                           (Raw example_event) (Raw example_event)) eq_refl)).
  - exact (proj1 (proj2 (proj2 (run_markers_are_not_converted example_decoder [] ∅
                                  eore_event (Raw example_event) (Raw example_event))
                           eq_refl eq_refl))).
Defined.

Lemma declared_hits_count_dropped_hits_witness :
  ∃ plane,
    build_plane example_decoder example_event 101 = Some plane
    ∧ HitPixels plane = 3
    ∧ plane_pixels plane !! 0 = Some None
    ∧ length (List.filter is_set (plane_pixels plane)) < HitPixels plane.
Proof.
  destruct (declared_hits_count_dropped_hits example_decoder example_event 101)
    as (plane & Hplane & Hcount & Hpos & Hfewer & _).
  exists plane. split; [exact Hplane |]. split; [exact Hcount |]. split.
  - exact (Hpos [] (mkBlock 101 [x01]) [] 0 (mkRawHit 0 0 9) eq_refl eq_refl).
  - apply Hfewer. exists (mkRawHit 0 0 9). split; [| reflexivity].
    apply list_elem_of_here.
Defined.

(** ** The aggregation claims *)

Lemma filter_map {A B} (f : A → B) (P : B → bool) (l : list A) :
  List.filter P (map f l) = map f (List.filter (λ a, P (f a)) l).
Proof.
  induction l as [| a l IH]; cbn; [done |].
  destruct (P (f a)); cbn; by rewrite IH.
Qed.

(** State at the tests: every collection ends with the frame pushed to it. *)
Lemma push_frames_state (dest : LCEvent) (g : Gathered) :
  let h := push_frames dest (get_or_new dest MUPIX_COLLECTION_NAME)
                       (get_or_new dest TRIGGER_COLLECTION_NAME)
                       (get_or_new dest TOT_COLLECTION_NAME) g in
  elements_of (ho_dest h) (ho_mupix h).2 =
    default [] (dest !! MUPIX_COLLECTION_NAME) ++ [mupix_frame_of g]
  ∧ elements_of (ho_dest h) (ho_trigger h).2 =
    default [] (dest !! TRIGGER_COLLECTION_NAME) ++ [trigger_frame_of g]
  ∧ elements_of (ho_dest h) (ho_tot h).2 =
    default [] (dest !! TOT_COLLECTION_NAME) ++ [tot_frame_of g].
Proof.
  pose proof names_mupix_trigger as Hmt.
  pose proof names_mupix_tot as Hmo.
  pose proof names_trigger_tot as Hto.
  unfold push_frames, get_or_new.
  destruct (dest !! MUPIX_COLLECTION_NAME) as [lm |] eqn:Hm;
  destruct (dest !! TRIGGER_COLLECTION_NAME) as [lt |] eqn:Ht;
  destruct (dest !! TOT_COLLECTION_NAME) as [lo |] eqn:Ho;
  cbn [fst snd push_back ho_dest ho_mupix ho_trigger ho_tot default id elements_of app];
  repeat split.
  all: repeat first [ rewrite lookup_alter_eq | rewrite lookup_alter_ne by congruence ].
  all: by rewrite ?Hm, ?Ht, ?Ho.
Qed.

Section AggregationClaims.

Variable from_bytes : list byte → TelescopeFrame.

(** The two entry points on a window of raw events whose first one is no
    run marker. *)
Lemma aggregation_raw dest source next_source nextNext_source r cycles :
  raw_bore source = false → raw_eore source = false →
  (r = GetLCIOSubEvent2 from_bytes dest (Raw source) (Raw next_source)
   ∧ cycles = [source; next_source])
  ∨ (r = GetLCIOSubEvent3 from_bytes dest (Raw source) (Raw next_source)
                          (Raw nextNext_source)
     ∧ cycles = [source; next_source; nextNext_source]) →
  r = converted from_bytes dest cycles.
Proof.
  intros Hb He [[-> ->] | [-> ->]].
  - by apply GetLCIOSubEvent2_raw.
  - by apply GetLCIOSubEvent3_raw.
Qed.

(** C1.  Aggregation of two or of three raw events, the first of which is no
    run marker.  Build the pixel of every decoded hit, cycle after cycle,
    block after block, hit after hit.  The frame appended to the pixel
    collection holds exactly those of these pixels whose stored coordinates
    are in range (first below 40, second below 32), each once and in that
    order.  The conversion returns true, and what it writes is one warning
    for every other hit, in that order, followed by the lines of the
    collections that were already there. *)
Theorem aggregation_pixels_in_arrival_order
    (dest : LCEvent) (source next_source nextNext_source : RawDataEvent)
    (r : LCIOResult) (cycles : list RawDataEvent) :
  raw_bore source = false → raw_eore source = false →
  (r = GetLCIOSubEvent2 from_bytes dest (Raw source) (Raw next_source)
   ∧ cycles = [source; next_source])
  ∨ (r = GetLCIOSubEvent3 from_bytes dest (Raw source) (Raw next_source)
                          (Raw nextNext_source)
     ∧ cycles = [source; next_source; nextNext_source]) →
  let candidates :=
    map (λ dh, mu_pixel dh.1 dh.2) (arrival_hits (window_frames from_bytes cycles)) in
  lcio_return r = true
  ∧ lcio_dest r !! MUPIX_COLLECTION_NAME =
    Some (default [] (dest !! MUPIX_COLLECTION_NAME)
          ++ [mkTrackerData MUPIX_SENSOR_ID (Some kEUTelMuPixel)
                            (List.filter stored_in_range candidates) []])
  ∧ lcio_log r =
    map (λ pixel, CoutWarning (px_x pixel) (px_y pixel))
        (List.filter (λ pixel, negb (stored_in_range pixel)) candidates)
    ++ failed_lines dest MUPIX_COLLECTION_NAME "Mupix"
    ++ failed_lines dest TRIGGER_COLLECTION_NAME "trigger"
    ++ failed_lines dest TOT_COLLECTION_NAME "tot".
Proof.
  intros Hb He Hr candidates.
  rewrite (aggregation_raw _ _ _ _ _ _ Hb He Hr).
  unfold converted. cbn [lcio_return lcio_dest lcio_log].
  split; [reflexivity |]. split.
  - rewrite handed_over_mupix. unfold mupix_frame_of, in_arrival_order. cbn [pixels].
    subst candidates. by rewrite filter_map.
  - f_equal. unfold in_arrival_order. cbn [written].
    subst candidates. by rewrite filter_map, map_map.
Qed.

(** C2, as the code has it.  Aggregation of two or of three raw events
    without any block, the first of which is no run marker: the three frames
    are empty, each of them is appended to its collection all the same, the
    conversion returns true, and a stream writes its failure line exactly
    when its collection was already in the event (so with none of them there
    no failure is reported and the three collections are added). *)
Theorem empty_window_fails_only_on_existing_collections
    (dest : LCEvent) (source next_source nextNext_source : RawDataEvent)
    (r : LCIOResult) (cycles : list RawDataEvent) :
  raw_bore source = false → raw_eore source = false →
  raw_blocks source = [] → raw_blocks next_source = [] →
  raw_blocks nextNext_source = [] →
  (r = GetLCIOSubEvent2 from_bytes dest (Raw source) (Raw next_source)
   ∧ cycles = [source; next_source])
  ∨ (r = GetLCIOSubEvent3 from_bytes dest (Raw source) (Raw next_source)
                          (Raw nextNext_source)
     ∧ cycles = [source; next_source; nextNext_source]) →
  lcio_return r = true
  ∧ lcio_dest r !! MUPIX_COLLECTION_NAME =
    Some (default [] (dest !! MUPIX_COLLECTION_NAME)
          ++ [mkTrackerData MUPIX_SENSOR_ID (Some kEUTelMuPixel) [] []])
  ∧ lcio_dest r !! TRIGGER_COLLECTION_NAME =
    Some (default [] (dest !! TRIGGER_COLLECTION_NAME) ++ [mkTrackerData 1 None [] []])
  ∧ lcio_dest r !! TOT_COLLECTION_NAME =
    Some (default [] (dest !! TOT_COLLECTION_NAME) ++ [mkTrackerData 1 None [] []])
  ∧ lcio_log r =
    failed_lines dest MUPIX_COLLECTION_NAME "Mupix"
    ++ failed_lines dest TRIGGER_COLLECTION_NAME "trigger"
    ++ failed_lines dest TOT_COLLECTION_NAME "tot"
  ∧ (CoutFailed "Mupix" ∈ lcio_log r ↔ is_Some (dest !! MUPIX_COLLECTION_NAME))
  ∧ (CoutFailed "trigger" ∈ lcio_log r ↔ is_Some (dest !! TRIGGER_COLLECTION_NAME))
  ∧ (CoutFailed "tot" ∈ lcio_log r ↔ is_Some (dest !! TOT_COLLECTION_NAME)).
Proof.
  intros Hb He H1 H2 H3 Hr.
  rewrite (aggregation_raw _ _ _ _ _ _ Hb He Hr).
  assert (Hg : in_arrival_order (window_frames from_bytes cycles) = mkGathered [] [] [] []).
  { destruct Hr as [[_ ->] | [_ ->]];
      unfold window_frames, cycle_frames; cbn [map concat];
      rewrite ?H1, ?H2, ?H3; reflexivity. }
  unfold converted. rewrite Hg. cbn [lcio_return lcio_dest lcio_log written app].
  rewrite handed_over_mupix, handed_over_trigger, handed_over_tot.
  repeat (split; [reflexivity |]).
  unfold failed_lines.
  destruct (dest !! MUPIX_COLLECTION_NAME), (dest !! TRIGGER_COLLECTION_NAME),
           (dest !! TOT_COLLECTION_NAME); cbn [app].
  all: repeat split; intros H; try (by eexists); try apply is_Some_None in H; try done.
  all: try (repeat constructor; fail).
  all: repeat (apply elem_of_cons in H as [H | H]; [discriminate H |]).
  all: by apply elem_of_nil in H.
Qed.

(** C3, as the code has it.  Aggregation of two or of three raw events, the
    first of which is no run marker: the frame appended to the trigger
    collection holds one entry for every decoded trigger, in arrival order,
    and the entry of a trigger is its time stamp and its tag as label, as
    they are.  A trigger with time stamp 100 and tag 0x1 is the entry with
    time stamp 100 and label 0x1; only a time over threshold is packed. *)
Theorem triggers_are_carried_through
    (dest : LCEvent) (source next_source nextNext_source : RawDataEvent)
    (r : LCIOResult) (cycles : list RawDataEvent) :
  raw_bore source = false → raw_eore source = false →
  (r = GetLCIOSubEvent2 from_bytes dest (Raw source) (Raw next_source)
   ∧ cycles = [source; next_source])
  ∨ (r = GetLCIOSubEvent3 from_bytes dest (Raw source) (Raw next_source)
                          (Raw nextNext_source)
     ∧ cycles = [source; next_source; nextNext_source]) →
  lcio_dest r !! TRIGGER_COLLECTION_NAME =
    Some (default [] (dest !! TRIGGER_COLLECTION_NAME)
          ++ [mkTrackerData 1 None []
                (map (λ trig, mkExternalTrigger (trig_timestamp trig) (trig_tag trig))
                     (arrival_triggers (window_frames from_bytes cycles)))])
  ∧ eutel_trigger (mkRawTrigger 100 0x1) = mkExternalTrigger 100 0x1
  ∧ lcio_dest r !! TOT_COLLECTION_NAME =
    Some (default [] (dest !! TOT_COLLECTION_NAME)
          ++ [mkTrackerData 1 None []
                (map (λ tot, mkExternalTrigger (tot_word tot) 0x2)
                     (arrival_tots (window_frames from_bytes cycles)))]).
Proof.
  intros Hb He Hr.
  rewrite (aggregation_raw _ _ _ _ _ _ Hb He Hr).
  unfold converted. cbn [lcio_dest].
  by rewrite handed_over_trigger, handed_over_tot.
Qed.

(** C10.  Aggregation of two or of three raw events, the first of which is
    no run marker.  The result is that of the three tests run on the state
    after the three [push_back].  In that state each collection is what it
    was followed by the new frame, so none has size 0.  For a collection
    that was already in the event the failure line is written and the frame
    stays appended to it in the event. *)
Theorem frames_are_pushed_before_the_tests
    (dest : LCEvent) (source next_source nextNext_source : RawDataEvent)
    (r : LCIOResult) (cycles : list RawDataEvent) :
  raw_bore source = false → raw_eore source = false →
  (r = GetLCIOSubEvent2 from_bytes dest (Raw source) (Raw next_source)
   ∧ cycles = [source; next_source])
  ∨ (r = GetLCIOSubEvent3 from_bytes dest (Raw source) (Raw next_source)
                          (Raw nextNext_source)
     ∧ cycles = [source; next_source; nextNext_source]) →
  let g := gather from_bytes cycles in
  let h := push_frames dest (get_or_new dest MUPIX_COLLECTION_NAME)
                       (get_or_new dest TRIGGER_COLLECTION_NAME)
                       (get_or_new dest TOT_COLLECTION_NAME) g in
  (lcio_dest r, lcio_log r) = register h (written g)
  ∧ (elements_of (ho_dest h) (ho_mupix h).2 =
       default [] (dest !! MUPIX_COLLECTION_NAME) ++ [mupix_frame_of g]
     ∧ elements_of (ho_dest h) (ho_trigger h).2 =
       default [] (dest !! TRIGGER_COLLECTION_NAME) ++ [trigger_frame_of g]
     ∧ elements_of (ho_dest h) (ho_tot h).2 =
       default [] (dest !! TOT_COLLECTION_NAME) ++ [tot_frame_of g])
  ∧ (collection_size (ho_dest h) (ho_mupix h).2 ≠ 0
     ∧ collection_size (ho_dest h) (ho_trigger h).2 ≠ 0
     ∧ collection_size (ho_dest h) (ho_tot h).2 ≠ 0)
  ∧ (∀ old, dest !! MUPIX_COLLECTION_NAME = Some old →
       CoutFailed "Mupix" ∈ lcio_log r
       ∧ lcio_dest r !! MUPIX_COLLECTION_NAME = Some (old ++ [mupix_frame_of g]))
  ∧ (∀ old, dest !! TRIGGER_COLLECTION_NAME = Some old →
       CoutFailed "trigger" ∈ lcio_log r
       ∧ lcio_dest r !! TRIGGER_COLLECTION_NAME = Some (old ++ [trigger_frame_of g]))
  ∧ (∀ old, dest !! TOT_COLLECTION_NAME = Some old →
       CoutFailed "tot" ∈ lcio_log r
       ∧ lcio_dest r !! TOT_COLLECTION_NAME = Some (old ++ [tot_frame_of g])).
Proof.
  intros Hb He Hr g h.
  pose proof (push_frames_state dest g) as (Hm & Ht & Ho). fold h in Hm, Ht, Ho.
  assert (Hres : r = converted from_bytes dest cycles)
    by exact (aggregation_raw _ _ _ _ _ _ Hb He Hr).
  assert (Hreg : register h (written g) = (lcio_dest r, lcio_log r)).
  { subst h. rewrite hand_over_eq, Hres. unfold converted. subst g.
    by rewrite gather_eq. }
  split; [by rewrite Hreg |].
  split; [by rewrite Hm, Ht, Ho |].
  split.
  { unfold collection_size. rewrite Hm, Ht, Ho, !length_app. cbn. lia. }
  rewrite Hres. unfold converted. cbn [lcio_dest lcio_log].
  fold (gather from_bytes cycles). rewrite <- gather_eq. fold g.
  rewrite handed_over_mupix, handed_over_trigger, handed_over_tot.
  unfold failed_lines.
  split; [| split]; intros old ->; cbn [default id]; (split; [| reflexivity]).
  all: rewrite !elem_of_app, !elem_of_cons; tauto.
Qed.

End AggregationClaims.

Lemma aggregation_pixels_in_arrival_order_witness :
  lcio_dest (GetLCIOSubEvent2 example_decoder ∅ (Raw example_event) (Raw example_event))
    !! MUPIX_COLLECTION_NAME =
    Some [mkTrackerData 71 (Some kEUTelMuPixel)
            [mkMuPixel 0 0 1 0 9 7; mkMuPixel 5 10 1 0 8 7;
             mkMuPixel 0 0 1 0 9 7; mkMuPixel 5 10 1 0 8 7] []]
  ∧ lcio_log (GetLCIOSubEvent2 example_decoder ∅ (Raw example_event) (Raw example_event)) =
    [CoutWarning 45 3; CoutWarning 45 3].
Proof.
  destruct (aggregation_pixels_in_arrival_order example_decoder ∅
              example_event example_event example_event _ _
              eq_refl eq_refl (or_introl (conj eq_refl eq_refl)))
    as (_ & Hdest & Hlog).
  split; [exact Hdest | exact Hlog].
Defined.

(** C2, the claim as it stands fails: two raw events without blocks and an
    event without collections.  No failure line is written, and the three
    collections are added with their empty frames. *)
Lemma empty_window_reports_no_failure :
  lcio_log (GetLCIOSubEvent2 example_decoder ∅ (Raw empty_event) (Raw empty_event)) = []
  ∧ (CoutFailed "Mupix"
       ∉ lcio_log (GetLCIOSubEvent2 example_decoder ∅ (Raw empty_event) (Raw empty_event)))
  ∧ (CoutFailed "trigger"
       ∉ lcio_log (GetLCIOSubEvent2 example_decoder ∅ (Raw empty_event) (Raw empty_event)))
  ∧ (CoutFailed "tot"
       ∉ lcio_log (GetLCIOSubEvent2 example_decoder ∅ (Raw empty_event) (Raw empty_event)))
  ∧ lcio_dest (GetLCIOSubEvent2 example_decoder ∅ (Raw empty_event) (Raw empty_event))
      !! MUPIX_COLLECTION_NAME = Some [mkTrackerData 71 (Some kEUTelMuPixel) [] []]
  ∧ lcio_dest (GetLCIOSubEvent2 example_decoder ∅ (Raw empty_event) (Raw empty_event))
      !! TRIGGER_COLLECTION_NAME = Some [mkTrackerData 1 None [] []]
  ∧ lcio_dest (GetLCIOSubEvent2 example_decoder ∅ (Raw empty_event) (Raw empty_event))
      !! TOT_COLLECTION_NAME = Some [mkTrackerData 1 None [] []].
Proof.
  assert (Hlog : lcio_log (GetLCIOSubEvent2 example_decoder ∅ (Raw empty_event)
                             (Raw empty_event)) = []) by reflexivity.
  rewrite Hlog.
  split; [reflexivity |].
  repeat (split; [apply not_elem_of_nil |]).
  repeat split; reflexivity.
Qed.

Lemma empty_window_fails_only_on_existing_collections_witness :
  lcio_log (GetLCIOSubEvent3 example_decoder
              {[ TRIGGER_COLLECTION_NAME := [] ]}
              (Raw empty_event) (Raw empty_event) (Raw empty_event)) =
    [CoutFailed "trigger"]
  ∧ lcio_dest (GetLCIOSubEvent3 example_decoder
                 {[ TRIGGER_COLLECTION_NAME := [] ]}
                 (Raw empty_event) (Raw empty_event) (Raw empty_event))
      !! TRIGGER_COLLECTION_NAME = Some [mkTrackerData 1 None [] []].
Proof.
  destruct (empty_window_fails_only_on_existing_collections example_decoder
              {[ TRIGGER_COLLECTION_NAME := [] ]}
              empty_event empty_event empty_event _ _
              eq_refl eq_refl eq_refl eq_refl eq_refl
              (or_intror (conj eq_refl eq_refl)))
    as (_ & _ & Htrigger & _ & Hlog & _).
  split; [exact Hlog | exact Htrigger].
Defined.

(** C3, the claim as it stands fails: the trigger with time stamp 100 and tag
    0x1 is in the trigger frame as the entry (100, 0x1); no entry of the
    frame has the word 100<<8 | 0x1 = 25601.  The time over threshold next to
    it is packed. *)
Lemma trigger_entry_is_not_packed :
  lcio_dest (GetLCIOSubEvent2 example_decoder ∅ (Raw example_event) (Raw empty_event))
    !! TRIGGER_COLLECTION_NAME =
    Some [mkTrackerData 1 None [] [mkExternalTrigger 100 0x1]]
  ∧ (N.lor (N.shiftl 100 8) 0x1 ∉ map ext_timestamp [mkExternalTrigger 100 0x1])
  ∧ lcio_dest (GetLCIOSubEvent2 example_decoder ∅ (Raw example_event) (Raw empty_event))
      !! TOT_COLLECTION_NAME =
    Some [mkTrackerData 1 None [] [mkExternalTrigger (N.lor (N.shiftl 200 8) 3) 0x2]].
Proof.
  split; [reflexivity |]. split; [| reflexivity].
  cbn. intros H. apply list_elem_of_singleton in H. discriminate H.
Qed.

Lemma triggers_are_carried_through_witness :
  lcio_dest (GetLCIOSubEvent3 example_decoder ∅ (Raw example_event) (Raw empty_event)
               (Raw example_event))
    !! TRIGGER_COLLECTION_NAME =
    Some [mkTrackerData 1 None [] [mkExternalTrigger 100 0x1; mkExternalTrigger 100 0x1]].
Proof.
  exact (proj1 (triggers_are_carried_through example_decoder ∅
                  example_event empty_event example_event _ _
                  eq_refl eq_refl (or_intror (conj eq_refl eq_refl)))).
Defined.

Lemma frames_are_pushed_before_the_tests_witness :
  CoutFailed "tot"
    ∈ lcio_log (GetLCIOSubEvent2 example_decoder
                  {[ TOT_COLLECTION_NAME := [mkTrackerData 1 None [] []] ]}
                  (Raw example_event) (Raw empty_event))
  ∧ lcio_dest (GetLCIOSubEvent2 example_decoder
                 {[ TOT_COLLECTION_NAME := [mkTrackerData 1 None [] []] ]}
                 (Raw example_event) (Raw empty_event))
      !! TOT_COLLECTION_NAME =
    Some [mkTrackerData 1 None [] [];
          mkTrackerData 1 None [] [mkExternalTrigger 51203 0x2]].
Proof.
  destruct (frames_are_pushed_before_the_tests example_decoder
              {[ TOT_COLLECTION_NAME := [mkTrackerData 1 None [] []] ]}
              example_event empty_event empty_event _ _
              eq_refl eq_refl (or_introl (conj eq_refl eq_refl)))
    as (_ & _ & _ & _ & _ & Htot).
  exact (Htot [mkTrackerData 1 None [] []] eq_refl).
Defined.

(** * Further properties of the plugin *)

(** ** [GetTriggerID] *)

(** The trailing block exists exactly when there is a block. *)
Lemma GetID_last_None source : GetID_last source = None ↔ raw_blocks source = [].
Proof.
  unfold GetID_last, GetID, NumBlocks.
  destruct (raw_blocks source) as [| blk l _] using rev_ind; [done |].
  rewrite length_app. cbn [length].
  replace (length l + 1) with (S (length l)) by lia.
  rewrite lookup_app_r by lia. rewrite Nat.sub_diag. cbn.
  split; [discriminate |]. intros H. by apply app_nil in H as [_ ?].
Qed.

(** X2.  [GetTriggerID] returns a value [id] exactly for a raw event that
    either is a run marker, and then [id] is [(unsigned)(-1)], or is none and
    has a trailing block with this [id]: the test of the id against
    [(unsigned)(-1)] changes nothing. *)
Theorem GetTriggerID_returns (ev : Event) (id : N) :
  GetTriggerID ev = ReturnsID id ↔
  ∃ rev, ev = Raw rev
         ∧ ((raw_bore rev || raw_eore rev = true ∧ id = unsigned_minus_one)
            ∨ (raw_bore rev || raw_eore rev = false ∧ GetID_last rev = Some id)).
Proof.
  unfold GetTriggerID. destruct ev as [rev | b e]; cbn [dynamic_cast_raw].
  - destruct (raw_bore rev || raw_eore rev) eqn:Hm.
    + split.
      * intros [= <-]. exists rev. split; [done |]. by left.
      * intros (rev' & [= <-] & [[_ ->] | [? _]]); [done | congruence].
    + destruct (GetID_last rev) as [last |] eqn:Hid.
      * destruct (N.eqb_spec last unsigned_minus_one) as [-> | Hne].
        -- split.
           ++ intros [= <-]. exists rev. split; [done |]. right. by rewrite Hm.
           ++ intros (rev' & [= <-] & [[? _] | [_ Hl]]); congruence.
        -- split.
           ++ intros [= <-]. exists rev. split; [done |]. right. by rewrite Hm.
           ++ intros (rev' & [= <-] & [[? _] | [_ Hl]]); congruence.
      * split; [discriminate |].
        intros (rev' & [= <-] & [[? _] | [_ Hl]]); congruence.
  - split; [discriminate |]. intros (rev & ? & _). discriminate.
Qed.

(** X3.  When [GetTriggerID] returns nothing: for an event that is not a raw
    event the body ends without a [return]; for a raw event that is no run
    marker and has no block the trailing block is looked up outside of the
    block vector.  Those are the only two ways. *)
Theorem GetTriggerID_without_value (ev : Event) :
  (GetTriggerID ev = NoReturnID ↔ dynamic_cast_raw ev = None)
  ∧ (GetTriggerID ev = OutOfRangeID ↔
     ∃ rev, ev = Raw rev ∧ raw_bore rev = false ∧ raw_eore rev = false
            ∧ raw_blocks rev = []).
Proof.
  split.
  - unfold GetTriggerID. destruct ev as [rev | b e]; cbn [dynamic_cast_raw]; [| done].
    split; [| discriminate].
    destruct (raw_bore rev || raw_eore rev); [discriminate |].
    destruct (GetID_last rev) as [last |] eqn:Hid; [| discriminate].
    by destruct (last =? unsigned_minus_one)%N.
  - unfold GetTriggerID. destruct ev as [rev | b e]; cbn [dynamic_cast_raw].
    + split.
      * intros H. exists rev. split; [done |].
        destruct (raw_bore rev), (raw_eore rev); cbn [orb] in H; try discriminate H.
        repeat split. apply GetID_last_None.
        destruct (GetID_last rev) as [last |] eqn:Hid; [| done].
        by destruct (last =? unsigned_minus_one)%N.
      * intros (rev' & [= <-] & -> & -> & Hn). cbn [orb].
        apply GetID_last_None in Hn. by rewrite Hn.
    + split; [discriminate |]. intros (rev & ? & _). discriminate.
Qed.

(** ** More on the quick-look conversion *)

Section QuickLookExtras.

Variable from_bytes : list byte → TelescopeFrame.

(** X4.  For a raw event that is no run marker, the id [GetTriggerID]
    returns is the TLU event of the one plane [GetStandardSubEvent] attaches,
    and that plane declares all hits of the event when the id is above 100
    and none otherwise. *)
Theorem quicklook_plane_carries_the_trigger_id
    (dest : StandardEvent) (source : RawDataEvent) (id : N) :
  raw_bore source = false → raw_eore source = false →
  GetTriggerID (Raw source) = ReturnsID id →
  ∃ plane,
    GetStandardSubEvent from_bytes dest (Raw source) =
      mkStandardResult (Returns true) (dest ++ [plane]) []
    ∧ plane_tluevent plane = id
    ∧ HitPixels plane =
      if (100 <? id)%N then length (event_hits from_bytes source) else 0.
Proof.
  intros Hb He Hid.
  apply GetTriggerID_returns in Hid as (rev & [= <-] & [[Hm _] | [_ Hlast]]).
  { rewrite Hb, He in Hm. discriminate Hm. }
  destruct (GetStandardSubEvent_raw from_bytes dest source id Hb He Hlast)
    as (plane & Hplane & ->).
  rewrite build_plane_eq in Hplane. injection Hplane as <-.
  eexists. split; [reflexivity |].
  unfold HitPixels. destruct (100 <? id)%N; cbn; [| done].
  by rewrite length_map.
Qed.

(** X5.  Whatever the event, [GetStandardSubEvent] leaves the planes the
    destination already holds in place and adds at most one plane behind
    them, none unless it returns true; an added plane is a plane of sensor
    71 of size 40 x 32. *)
Theorem quicklook_keeps_earlier_planes (dest : StandardEvent) (ev : Event) :
  ∃ added,
    std_dest (GetStandardSubEvent from_bytes dest ev) = dest ++ added
    ∧ length added ≤ 1
    ∧ (std_outcome (GetStandardSubEvent from_bytes dest ev) ≠ Returns true → added = [])
    ∧ (∀ plane, plane ∈ added →
         plane_id plane = MUPIX_SENSOR_ID ∧ plane_xsize plane = 40%N
         ∧ plane_ysize plane = 32%N).
Proof.
  assert (Hnone : ∀ o log,
    ∃ added : list StandardPlane,
      std_dest (mkStandardResult o dest log) = dest ++ added ∧ length added ≤ 1
      ∧ (std_outcome (mkStandardResult o dest log) ≠ Returns true → added = [])
      ∧ (∀ plane, plane ∈ added →
           plane_id plane = MUPIX_SENSOR_ID ∧ plane_xsize plane = 40%N
           ∧ plane_ysize plane = 32%N)).
  { intros o log. exists []. cbn. rewrite app_nil_r.
    split; [done |]. split; [lia |]. split; [done |].
    intros ? H. by apply elem_of_nil in H. }
  unfold GetStandardSubEvent. destruct ev as [source | b e]; cbn [dynamic_cast_raw].
  - destruct (raw_bore source); [apply Hnone |].
    destruct (raw_eore source); [apply Hnone |].
    destruct (GetID_last source) as [tlu |]; [| apply Hnone].
    rewrite build_plane_eq.
    destruct (100 <? tlu)%N;
      (eexists [_]; cbn; split; [done |]; split; [lia |]; split; [done |];
       intros ? Hin; apply list_elem_of_singleton in Hin; by subst).
  - apply Hnone.
Qed.

(** X6.  A raw event that is no run marker is converted exactly when it has
    a block: with a block the conversion returns true and adds one plane,
    whatever the number of hits (no [SetPixel] falls outside of the declared
    positions); with no block there is no trailing block to take the id
    from, and nothing is added. *)
Theorem quicklook_needs_a_block (dest : StandardEvent) (source : RawDataEvent) :
  raw_bore source = false → raw_eore source = false →
  (raw_blocks source ≠ [] →
     std_outcome (GetStandardSubEvent from_bytes dest (Raw source)) = Returns true
     ∧ length (std_dest (GetStandardSubEvent from_bytes dest (Raw source)))
       = S (length dest))
  ∧ (raw_blocks source = [] →
     GetStandardSubEvent from_bytes dest (Raw source) =
     mkStandardResult OutOfRange dest []).
Proof.
  intros Hb He. split.
  - intros Hne.
    destruct (GetID_last source) as [tlu |] eqn:Hid.
    + destruct (GetStandardSubEvent_raw from_bytes dest source tlu Hb He Hid)
        as (plane & _ & ->).
      cbn. rewrite length_app. cbn. split; [done | lia].
    + by apply GetID_last_None in Hid.
  - intros Hn. apply GetID_last_None in Hn.
    unfold GetStandardSubEvent. cbn [dynamic_cast_raw]. by rewrite Hb, He, Hn.
Qed.

(** X7.  The quick-look conversion does not test a hit against the sensor:
    a hit that the aggregation leaves out (row at least 40 or column at
    least 32) has its position set in the plane, with these coordinates,
    although the plane declares the size 40 x 32. *)
Theorem quicklook_sets_pixels_outside_the_sensor
    (source : RawDataEvent) (tlu : N) (i : nat) (hit : RawHit) :
  event_hits from_bytes source !! i = Some hit →
  hit_in_sensor hit = false →
  ∃ plane,
    build_plane from_bytes source tlu = Some plane
    ∧ plane_xsize plane = 40%N ∧ plane_ysize plane = 32%N
    ∧ plane_pixels plane !! i =
      Some (Some (mkPlanePixel (hit_row hit) (hit_column hit) 1))
    ∧ ((40 ≤ hit_row hit)%N ∨ (32 ≤ hit_column hit)%N).
Proof.
  intros Hi Hout. eexists. split; [apply build_plane_eq |].
  cbn [plane_xsize plane_ysize plane_pixels]. split; [done |]. split; [done |].
  unfold hit_in_sensor, MUPIX_SENSOR_NUM_COLS, MUPIX_SENSOR_NUM_ROWS in Hout.
  assert (Hrange : (40 ≤ hit_row hit)%N ∨ (32 ≤ hit_column hit)%N).
  { destruct (N.ltb_spec (hit_row hit) 40), (N.ltb_spec (hit_column hit) 32);
      cbn in Hout; try discriminate Hout; lia. }
  split; [| exact Hrange].
  rewrite (plane_slot_lookup _ _ _ _ Hi). unfold plane_slot, quicklook_drops.
  destruct (N.eqb_spec (hit_row hit) 0), (N.eqb_spec (hit_column hit) 0);
    cbn; try done; lia.
Qed.

End QuickLookExtras.

Lemma quicklook_plane_carries_the_trigger_id_witness :
  ∃ plane,
    GetStandardSubEvent example_decoder [] (Raw example_event) =
      mkStandardResult (Returns true) [plane] []
    ∧ plane_tluevent plane = 101%N
    ∧ HitPixels plane = 3.
Proof.
  exact (quicklook_plane_carries_the_trigger_id example_decoder [] example_event 101
           eq_refl eq_refl eq_refl).
Defined.

Lemma quicklook_needs_a_block_witness :
  std_outcome (GetStandardSubEvent example_decoder [] (Raw example_event)) = Returns true
  ∧ GetStandardSubEvent example_decoder [] (Raw empty_event) =
    mkStandardResult OutOfRange [] [].
Proof.
  destruct (quicklook_needs_a_block example_decoder [] example_event eq_refl eq_refl)
    as [Hsome _].
  destruct (quicklook_needs_a_block example_decoder [] empty_event eq_refl eq_refl)
    as [_ Hnone].
  split; [apply Hsome; discriminate | apply Hnone; reflexivity].
Defined.

Lemma quicklook_sets_pixels_outside_the_sensor_witness :
  ∃ plane,
    build_plane example_decoder example_event 101 = Some plane
    ∧ plane_xsize plane = 40%N
    ∧ plane_pixels plane !! 2 = Some (Some (mkPlanePixel 45 3 1)).
Proof.
  destruct (quicklook_sets_pixels_outside_the_sensor example_decoder example_event 101
              2 (mkRawHit 45 3 1) eq_refl eq_refl)
    as (plane & Hplane & Hx & _ & Hpix & _).
  exists plane. split; [exact Hplane |]. split; [exact Hx | exact Hpix].
Defined.

(** ** More on the packing of a time over threshold *)

Lemma pack_tot_below timestamp len : (pack_tot timestamp len < 2 ^ 56)%N.
Proof.
  assert (H : pack_tot timestamp len = (pack_tot timestamp len mod 2 ^ 56)%N).
  { apply N.bits_inj. intros n.
    destruct (N.ltb_spec n 56) as [Hn | Hn].
    - by rewrite N.mod_pow2_bits_low.
    - rewrite N.mod_pow2_bits_high by assumption. rewrite pack_tot_bits.
      destruct (N.ltb_spec n 8); [lia |]. destruct (N.ltb_spec n 56); [lia | done]. }
  rewrite H. by apply N.mod_lt.
Qed.

(** X8.  The word of a time over threshold is below 2^56, so the cast to 64
    bit loses nothing, and it is the word of the time stamp reduced modulo
    2^48 and the length reduced modulo 2^8: two entries whose time stamps
    differ by a multiple of 2^48 are added as the same entry. *)
Theorem tot_word_is_truncated (tot : RawTimeOverThreshold) (k : N) :
  (tot_word tot < 2 ^ 56)%N
  ∧ tot_word tot =
    tot_word (mkRawTot (tot_timestamp tot mod 2 ^ 48) (tot_length tot mod 2 ^ 8))
  ∧ eutel_tot (mkRawTot (tot_timestamp tot + k * 2 ^ 48) (tot_length tot)) =
    eutel_tot tot.
Proof.
  assert (Hmod : ∀ t, tot_word t =
    tot_word (mkRawTot (tot_timestamp t mod 2 ^ 48) (tot_length t mod 2 ^ 8))).
  { intros t. rewrite !tot_word_no_wrap. cbn [tot_timestamp tot_length].
    apply N.bits_inj. intros n. rewrite !pack_tot_bits.
    destruct (N.ltb_spec n 8) as [H8 | H8].
    - by rewrite N.mod_pow2_bits_low.
    - destruct (N.ltb_spec n 56) as [H56 | H56]; [| done].
      rewrite N.mod_pow2_bits_low by lia. done. }
  split; [rewrite tot_word_no_wrap; apply pack_tot_below |].
  split; [apply Hmod |].
  unfold eutel_tot. f_equal.
  rewrite (Hmod tot), (Hmod (mkRawTot _ _)). cbn [tot_timestamp tot_length].
  by rewrite N.Div0.mod_add.
Qed.

(** X9.  Within the ranges the packing is one to one: two times over
    threshold with time stamps below 2^48 and lengths below 2^8 that are
    added as the same entry are the same. *)
Theorem tot_entries_differ (tot1 tot2 : RawTimeOverThreshold) :
  (tot_timestamp tot1 < 2 ^ 48)%N → (tot_length tot1 < 2 ^ 8)%N →
  (tot_timestamp tot2 < 2 ^ 48)%N → (tot_length tot2 < 2 ^ 8)%N →
  eutel_tot tot1 = eutel_tot tot2 → tot1 = tot2.
Proof.
  intros Ht1 Hl1 Ht2 Hl2 [= Hword].
  destruct tot1 as [t1 l1], tot2 as [t2 l2]. cbn in Ht1, Hl1, Ht2, Hl2.
  pose proof (tot_word_timestamp_back (mkRawTot t1 l1) Ht1) as Hts1.
  pose proof (tot_word_timestamp_back (mkRawTot t2 l2) Ht2) as Hts2.
  pose proof (tot_word_length_back (mkRawTot t1 l1) Hl1) as Hlen1.
  pose proof (tot_word_length_back (mkRawTot t2 l2) Hl2) as Hlen2.
  cbn [tot_timestamp tot_length] in Hts1, Hts2, Hlen1, Hlen2.
  rewrite Hword in Hts1, Hlen1. congruence.
Qed.

Lemma tot_entries_differ_witness : mkRawTot 200 3 = mkRawTot 200 3.
Proof.
  apply tot_entries_differ; reflexivity.
Defined.

(** ** More on the aggregation *)

Section AggregationExtras.

Variable from_bytes : list byte → TelescopeFrame.

(** Either the event is left alone, or the casts succeeded on a first event
    that is no run marker. *)
Lemma aggregation_cases dest ev next nextNext r :
  r = GetLCIOSubEvent2 from_bytes dest ev next
  ∨ r = GetLCIOSubEvent3 from_bytes dest ev next nextNext →
  (lcio_return r = true ∧ lcio_dest r = dest)
  ∨ ∃ cycles, r = converted from_bytes dest cycles.
Proof.
  intros [-> | ->]; unfold GetLCIOSubEvent2, GetLCIOSubEvent3.
  - destruct (IsBORE ev); [by left |]. destruct (IsEORE ev); [by left |].
    destruct (dynamic_cast_raw ev); [| by left].
    destruct (dynamic_cast_raw next); [| by left].
    right. eexists. apply convert_cycles_eq.
  - destruct (IsBORE ev); [by left |]. destruct (IsEORE ev); [by left |].
    destruct (dynamic_cast_raw ev); [| by left].
    destruct (dynamic_cast_raw next); [| by left].
    destruct (dynamic_cast_raw nextNext); [| by left].
    right. eexists. apply convert_cycles_eq.
Qed.

(** X10.  Whatever the events, an aggregation returns true, leaves every
    collection other than the three of the plugin as it is, and of a
    collection the event holds it keeps the frames in place, adding at most
    one frame behind them: nothing is ever removed, replaced or reordered. *)
Theorem aggregation_keeps_what_the_event_holds
    (dest : LCEvent) (ev next nextNext : Event) (r : LCIOResult) :
  r = GetLCIOSubEvent2 from_bytes dest ev next
  ∨ r = GetLCIOSubEvent3 from_bytes dest ev next nextNext →
  lcio_return r = true
  ∧ (∀ name, name ≠ MUPIX_COLLECTION_NAME → name ≠ TRIGGER_COLLECTION_NAME →
       name ≠ TOT_COLLECTION_NAME → lcio_dest r !! name = dest !! name)
  ∧ (∀ name old, dest !! name = Some old →
       ∃ added, lcio_dest r !! name = Some (old ++ added) ∧ length added ≤ 1).
Proof.
  intros Hr.
  destruct (aggregation_cases _ _ _ _ _ Hr) as [[Hret Hdest] | [cycles ->]].
  - rewrite Hdest. split; [done |]. split; [done |].
    intros name old Hold. exists []. rewrite app_nil_r. split; [done | cbn; lia].
  - unfold converted. cbn [lcio_return lcio_dest].
    split; [done |]. split; [intros; by apply handed_over_other |].
    intros name old Hold.
    destruct (decide (name = MUPIX_COLLECTION_NAME)) as [-> | Hm].
    { rewrite handed_over_mupix, Hold. eexists [_]. split; [reflexivity | cbn; lia]. }
    destruct (decide (name = TRIGGER_COLLECTION_NAME)) as [-> | Ht].
    { rewrite handed_over_trigger, Hold. eexists [_]. split; [reflexivity | cbn; lia]. }
    destruct (decide (name = TOT_COLLECTION_NAME)) as [-> | Ho].
    { rewrite handed_over_tot, Hold. eexists [_]. split; [reflexivity | cbn; lia]. }
    rewrite handed_over_other by done. exists []. rewrite app_nil_r.
    split; [done | cbn; lia].
Qed.

(** X11.  A window one of whose events is not a raw event, behind a first
    event that is no run marker: the aggregation returns true, leaves the
    event as it is and writes nothing, although the collections were looked
    up before the casts. *)
Theorem aggregation_cast_failure_is_silent
    (dest : LCEvent) (ev next nextNext : Event) :
  IsBORE ev = false → IsEORE ev = false →
  (dynamic_cast_raw ev = None ∨ dynamic_cast_raw next = None →
     GetLCIOSubEvent2 from_bytes dest ev next = mkLCIOResult true dest [])
  ∧ (dynamic_cast_raw ev = None ∨ dynamic_cast_raw next = None
     ∨ dynamic_cast_raw nextNext = None →
     GetLCIOSubEvent3 from_bytes dest ev next nextNext = mkLCIOResult true dest []).
Proof.
  intros Hb He. unfold GetLCIOSubEvent2, GetLCIOSubEvent3. rewrite Hb, He.
  split; intros H.
  - destruct (dynamic_cast_raw ev); [| done].
    destruct (dynamic_cast_raw next); [| done].
    destruct H as [H | H]; discriminate H.
  - destruct (dynamic_cast_raw ev); [| done].
    destruct (dynamic_cast_raw next); [| done].
    destruct (dynamic_cast_raw nextNext); [| done].
    destruct H as [H | [H | H]]; discriminate H.
Qed.

(** X12.  Only the first event of a window is tested for a run marker: the
    flags of the later events make no difference, an event flagged begin or
    end of run in second or third place is read like any other. *)
Theorem later_events_are_not_tested_for_run_markers
    (dest : LCEvent) (ev : Event) (blocks1 blocks2 : list RawBlock)
    (bore1 eore1 bore2 eore2 : bool) :
  GetLCIOSubEvent2 from_bytes dest ev (Raw (mkRaw bore1 eore1 blocks1)) =
    GetLCIOSubEvent2 from_bytes dest ev (Raw (mkRaw false false blocks1))
  ∧ GetLCIOSubEvent3 from_bytes dest ev (Raw (mkRaw bore1 eore1 blocks1))
                     (Raw (mkRaw bore2 eore2 blocks2)) =
    GetLCIOSubEvent3 from_bytes dest ev (Raw (mkRaw false false blocks1))
                     (Raw (mkRaw false false blocks2)).
Proof.
  unfold GetLCIOSubEvent2, GetLCIOSubEvent3.
  destruct (IsBORE ev); [done |]. destruct (IsEORE ev); [done |].
  destruct (dynamic_cast_raw ev); [| done].
  cbn [dynamic_cast_raw]. rewrite !convert_cycles_eq.
  unfold converted, window_frames, cycle_frames. cbn [map raw_blocks]. done.
Qed.

(** X13.  The records of three cycles are those of the first two followed by
    those of the third: for the same first two events, the pixel, trigger and
    time over threshold frames of the three cycle aggregation begin with the
    entries of the frames of the two cycle aggregation, and its warnings with
    the other's warnings. *)
Theorem third_cycle_extends_the_records
    (dest : LCEvent) (source next_source nextNext_source : RawDataEvent) :
  raw_bore source = false → raw_eore source = false →
  let g2 := gather from_bytes [source; next_source] in
  let g3 := gather from_bytes [source; next_source; nextNext_source] in
  let last := gather from_bytes [nextNext_source] in
  GetLCIOSubEvent2 from_bytes dest (Raw source) (Raw next_source) =
    mkLCIOResult true (handed_over dest g2)
      (written g2 ++ failed_lines dest MUPIX_COLLECTION_NAME "Mupix"
                  ++ failed_lines dest TRIGGER_COLLECTION_NAME "trigger"
                  ++ failed_lines dest TOT_COLLECTION_NAME "tot")
  ∧ GetLCIOSubEvent3 from_bytes dest (Raw source) (Raw next_source)
                     (Raw nextNext_source) =
    mkLCIOResult true (handed_over dest g3)
      (written g3 ++ failed_lines dest MUPIX_COLLECTION_NAME "Mupix"
                  ++ failed_lines dest TRIGGER_COLLECTION_NAME "trigger"
                  ++ failed_lines dest TOT_COLLECTION_NAME "tot")
  ∧ pixels g3 = pixels g2 ++ pixels last
  ∧ triggers g3 = triggers g2 ++ triggers last
  ∧ tots g3 = tots g2 ++ tots last
  ∧ written g3 = written g2 ++ written last.
Proof.
  intros Hb He g2 g3 last.
  rewrite GetLCIOSubEvent2_raw, GetLCIOSubEvent3_raw by assumption.
  unfold converted. rewrite <- !gather_eq. fold g2 g3.
  split; [done |]. split; [done |].
  assert (Hg : g3 = gathered_app g2 last).
  { subst g2 g3 last. rewrite !gather_eq, <- in_arrival_order_app. f_equal.
    unfold window_frames. cbn [map concat]. by rewrite !app_nil_r, app_assoc. }
  rewrite Hg. by cbn.
Qed.

End AggregationExtras.

Lemma third_cycle_extends_the_records_witness :
  triggers (gather example_decoder [example_event; empty_event; example_event]) =
  triggers (gather example_decoder [example_event; empty_event])
  ++ triggers (gather example_decoder [example_event]).
Proof.
  exact (proj1 (proj2 (proj2 (proj2
           (third_cycle_extends_the_records example_decoder ∅
              example_event empty_event example_event eq_refl eq_refl))))).
Defined.

Lemma aggregation_keeps_what_the_event_holds_witness :
  lcio_dest (GetLCIOSubEvent2 example_decoder {[ "other" := [] ]}
               (Raw example_event) (Raw empty_event)) !! "other" = Some [].
Proof.
  destruct (aggregation_keeps_what_the_event_holds example_decoder
              {[ "other" := [] ]} (Raw example_event) (Raw empty_event)
              (Raw empty_event) _ (or_introl eq_refl)) as (_ & Hother & _).
  exact (Hother "other" ltac:(discriminate) ltac:(discriminate) ltac:(discriminate)).
Defined.

Lemma aggregation_cast_failure_is_silent_witness :
  GetLCIOSubEvent3 example_decoder ∅ (Raw example_event) (Raw example_event)
                   (NotRaw false false) = mkLCIOResult true ∅ [].
Proof.
  exact (proj2 (aggregation_cast_failure_is_silent example_decoder ∅
                  (Raw example_event) (Raw example_event) (NotRaw false false)
                  eq_refl eq_refl)
               (or_intror (or_intror eq_refl))).
Defined.

Section AggregationRecords.

Variable from_bytes : list byte → TelescopeFrame.



(** X15.  An aggregation loses no entry without a trace: every decoded hit
    gives either a pixel of the appended pixel frame or a warning line, so
    pixels and warnings together are as many as the decoded hits; the
    appended trigger frame has one entry for each decoded trigger and the
    appended time over threshold frame one for each decoded time over
    threshold. *)
Theorem aggregation_accounts_for_every_entry
    (dest : LCEvent) (source next_source nextNext_source : RawDataEvent)
    (r : LCIOResult) (cycles : list RawDataEvent) :
  raw_bore source = false → raw_eore source = false →
  (r = GetLCIOSubEvent2 from_bytes dest (Raw source) (Raw next_source)
   ∧ cycles = [source; next_source])
  ∨ (r = GetLCIOSubEvent3 from_bytes dest (Raw source) (Raw next_source)
                          (Raw nextNext_source)
     ∧ cycles = [source; next_source; nextNext_source]) →
  ∃ mupix_frame trigger_frame tot_frame warnings,
    lcio_dest r !! MUPIX_COLLECTION_NAME =
      Some (default [] (dest !! MUPIX_COLLECTION_NAME) ++ [mupix_frame])
    ∧ lcio_dest r !! TRIGGER_COLLECTION_NAME =
      Some (default [] (dest !! TRIGGER_COLLECTION_NAME) ++ [trigger_frame])
    ∧ lcio_dest r !! TOT_COLLECTION_NAME =
      Some (default [] (dest !! TOT_COLLECTION_NAME) ++ [tot_frame])
    ∧ lcio_log r =
      warnings ++ failed_lines dest MUPIX_COLLECTION_NAME "Mupix"
               ++ failed_lines dest TRIGGER_COLLECTION_NAME "trigger"
               ++ failed_lines dest TOT_COLLECTION_NAME "tot"
    ∧ (∀ line, In line warnings → ∃ col row, line = CoutWarning col row)
    ∧ length (td_pixels mupix_frame) + length warnings =
      length (arrival_hits (window_frames from_bytes cycles))
    ∧ length (td_triggers trigger_frame) =
      length (arrival_triggers (window_frames from_bytes cycles))
    ∧ length (td_triggers tot_frame) =
      length (arrival_tots (window_frames from_bytes cycles)).
Proof.
  intros Hb He Hr.
  rewrite (aggregation_raw _ _ _ _ _ _ _ Hb He Hr).
  unfold converted. cbn [lcio_dest lcio_log].
  rewrite handed_over_mupix, handed_over_trigger, handed_over_tot.
  do 4 eexists. do 4 (split; [reflexivity |]).
  unfold mupix_frame_of, trigger_frame_of, tot_frame_of, in_arrival_order.
  cbn [td_pixels td_triggers pixels triggers tots written].
  rewrite !length_map. split; [| split; [apply List.filter_length | done]].
  intros line Hin. apply in_map_iff in Hin as ([data hit] & <- & _).
  unfold hit_warning. by eexists _, _.
Qed.

(** X16.  A second aggregation into the same event meets the three
    collections the first one added: it writes the three failure lines,
    whatever it decoded, and all the same appends its frames, so that each
    collection ends with the frame of the first and then the frame of the
    second conversion. *)
Theorem second_conversion_fails_and_appends
    (dest : LCEvent) (source1 next1 source2 next2 : RawDataEvent) :
  raw_bore source1 = false → raw_eore source1 = false →
  raw_bore source2 = false → raw_eore source2 = false →
  let r1 := GetLCIOSubEvent2 from_bytes dest (Raw source1) (Raw next1) in
  let r2 := GetLCIOSubEvent2 from_bytes (lcio_dest r1) (Raw source2) (Raw next2) in
  let g1 := gather from_bytes [source1; next1] in
  let g2 := gather from_bytes [source2; next2] in
  lcio_log r2 =
    written g2 ++ [CoutFailed "Mupix"; CoutFailed "trigger"; CoutFailed "tot"]
  ∧ lcio_dest r2 !! MUPIX_COLLECTION_NAME =
    Some (default [] (dest !! MUPIX_COLLECTION_NAME)
          ++ [mupix_frame_of g1; mupix_frame_of g2])
  ∧ lcio_dest r2 !! TRIGGER_COLLECTION_NAME =
    Some (default [] (dest !! TRIGGER_COLLECTION_NAME)
          ++ [trigger_frame_of g1; trigger_frame_of g2])
  ∧ lcio_dest r2 !! TOT_COLLECTION_NAME =
    Some (default [] (dest !! TOT_COLLECTION_NAME)
          ++ [tot_frame_of g1; tot_frame_of g2]).
Proof.
  intros Hb1 He1 Hb2 He2 r1 r2 g1 g2. subst r1 r2.
  rewrite !(GetLCIOSubEvent2_raw _ dest) by assumption.
  assert (H1 : lcio_dest (converted from_bytes dest [source1; next1]) = handed_over dest g1).
  { unfold converted. cbn [lcio_dest]. by rewrite <- gather_eq. }
  rewrite !H1. rewrite !GetLCIOSubEvent2_raw by assumption.
  unfold converted. cbn [lcio_dest lcio_log].
  rewrite <- !gather_eq. fold g2.
  unfold failed_lines.
  rewrite !handed_over_mupix, !handed_over_trigger, !handed_over_tot.
  cbn [default id app]. rewrite <- !app_assoc. done.
Qed.

End AggregationRecords.


Lemma aggregation_accounts_for_every_entry_witness :
  ∃ mupix_frame warnings,
    lcio_dest (GetLCIOSubEvent2 example_decoder ∅ (Raw example_event) (Raw empty_event))
      !! MUPIX_COLLECTION_NAME = Some [mupix_frame]
    ∧ lcio_log (GetLCIOSubEvent2 example_decoder ∅ (Raw example_event) (Raw empty_event))
      = warnings
    ∧ length (td_pixels mupix_frame) + length warnings = 3.
Proof.
  destruct (aggregation_accounts_for_every_entry example_decoder ∅
              example_event empty_event empty_event _ _
              eq_refl eq_refl (or_introl (conj eq_refl eq_refl)))
    as (fm & ft & fo & warnings & Hm & _ & _ & Hlog & _ & Hcount & _).
  exists fm, warnings. split; [exact Hm |]. split; [| exact Hcount].
  rewrite Hlog. cbn. apply app_nil_r.
Defined.

Lemma second_conversion_fails_and_appends_witness :
  lcio_log
    (GetLCIOSubEvent2 example_decoder
       (lcio_dest (GetLCIOSubEvent2 example_decoder ∅ (Raw empty_event) (Raw empty_event)))
       (Raw empty_event) (Raw empty_event)) =
  [CoutFailed "Mupix"; CoutFailed "trigger"; CoutFailed "tot"].
Proof.
  exact (proj1 (second_conversion_fails_and_appends example_decoder ∅
                  empty_event empty_event empty_event empty_event
                  eq_refl eq_refl eq_refl eq_refl)).
Defined.
